(** * Agent transports and agent context of the Steamship python client

    A shallow embedding of

    - [steamship/agents/schema/context.py]            ([AgentContext]),
    - [steamship/agents/mixins/transports/telegram.py] ([TelegramTransport]),
    - [steamship/agents/mixins/transports/steamship_widget.py]
      ([SteamshipWidgetTransport]),

    together with the properties their specification states about them.

    Python code is modelled as state passing with exceptions: a computation
    takes the current [World] (the workspace's chat-history files and cache
    stores, the log of outbound provider calls, the error log, the widget
    transport's buffer) and gives back an [outcome] and the new world.  What
    was written before an exception is raised stays written. *)

From Stdlib Require Import ZArith String Ascii.
From stdpp Require Import gmap strings list fin_maps pretty.

#[local] Set Warnings "-register-all".
#[local] Open Scope string_scope.
#[local] Open Scope Z_scope.

(* ===================================================================== *)
(** ** Python values and the builtins the transports use                  *)
(* ===================================================================== *)

Module Py.

(** The values a decoded JSON webhook body is made of.  Floats do not occur
    in the fields the transports read and are left out. *)
Inductive pyval : Type :=
| PNone
| PBool (b : bool)
| PInt (n : Z)
| PStr (s : string)
| PList (l : list pyval)
| PDict (d : gmap string pyval).

(** The messages of the [SteamshipError]s raised by the transports and by
    the setters of a block's ids; the f-string arguments are kept as data. *)
Inductive steamship_message : Type :=
| NoChatFound (payload : pyval)
| NoChatIdFound (payload : pyval)
| BadChatId (chat_id : pyval)
| NoMessageIdFound (payload : pyval)
| BadMessageId (message_id : pyval)
| MessageNotSent (chat_id : pyval) (resp_text : string)
| NoQuestionFound (payload : pyval)
| ChatIdAlreadySet (existing chat_id : pyval)
| MessageIdAlreadySet (existing message_id : pyval).

(** Exceptions, all of them subclasses of Python's [Exception]. *)
Inductive exn : Type :=
| SteamshipError (m : steamship_message)
| AttributeError (attribute : string)
| TypeError
| ValueError
| KeyError (key : string)
| JSONDecodeError
| OtherError (description : string).

Inductive outcome (A : Type) : Type :=
| Returns (a : A)
| Raises (e : exn).
Arguments Returns {A} a.
Arguments Raises {A} e.

(** Truthiness, as [if v:] and [v or w] test it. *)
Definition truthy (v : pyval) : bool :=
  match v with
  | PNone => false
  | PBool b => b
  | PInt n => negb (n =? 0)
  | PStr s => negb (String.eqb s "")
  | PList l => negb (Nat.eqb (length l) 0)
  | PDict d => negb (Nat.eqb (size d) 0)
  end.

(** [a or b] *)
Definition py_or (a b : pyval) : pyval := if truthy a then a else b.

Definition is_none (v : pyval) : bool :=
  match v with PNone => true | _ => false end.

(** [isinstance(v, int)]: [bool] is a subclass of [int]. *)
Definition isinstance_int (v : pyval) : bool :=
  match v with PInt _ | PBool _ => true | _ => false end.

(** [v.get(k)] and [v.get(k, dflt)]: only dicts have the method. *)
Definition get_method (v : pyval) (k : string) (dflt : pyval) : outcome pyval :=
  match v with
  | PDict d => Returns (default dflt (d !! k))
  | _ => Raises (AttributeError "get")
  end.

(** [v[k]] for a string key. *)
Definition getitem (v : pyval) (k : string) : outcome pyval :=
  match v with
  | PDict d => match d !! k with
               | Some x => Returns x
               | None => Raises (KeyError k)
               end
  | _ => Raises TypeError
  end.

(** *** [int(...)]

    A [string] holds a Python string in UTF-8.  [int] of a string works on
    its code points: those below 127 are read as they are, white space from
    127 on counts as a blank, a decimal digit of any script as its ASCII
    digit, and any other code point makes the string no number.  What is
    read then is white space around an optional sign and decimal digits with
    single underscores between them.  The interpreter's cap on the number of
    digits ([sys.set_int_max_str_digits]) is a setting of the interpreter and
    no part of the conversion; it is left out, here and in [str]. *)

(** The white space [int] skips among the code points below 127: tab, line
    feed, vertical tab, form feed, carriage return and blank.  The separators
    28 to 31, white space for [str.isspace], are not among them. *)
Definition is_space (a : ascii) : bool :=
  let n := nat_of_ascii a in
  ((9 <=? n) && (n <=? 13) || (n =? 32))%nat.

(** The white space from 127 on. *)
Definition unicode_space (c : N) : bool :=
  ((c =? 0x85) || (c =? 0xA0) || (c =? 0x1680)
   || (0x2000 <=? c) && (c <=? 0x200A)
   || (c =? 0x2028) || (c =? 0x2029) || (c =? 0x202F) || (c =? 0x205F)
   || (c =? 0x3000))%N.

(** The digits zero beyond ASCII, one for each run of decimal digits
    (category Nd) of Unicode 14.0, the version CPython 3.11 carries; the
    digits one to nine follow their zero. *)
Definition decimal_zeros : list N :=
  [0x0660; 0x06F0; 0x07C0; 0x0966; 0x09E6; 0x0A66; 0x0AE6; 0x0B66; 0x0BE6;
   0x0C66; 0x0CE6; 0x0D66; 0x0DE6; 0x0E50; 0x0ED0; 0x0F20; 0x1040; 0x1090;
   0x17E0; 0x1810; 0x1946; 0x19D0; 0x1A80; 0x1A90; 0x1B50; 0x1BB0; 0x1C40;
   0x1C50; 0xA620; 0xA8D0; 0xA900; 0xA9D0; 0xA9F0; 0xAA50; 0xABF0; 0xFF10;
   0x104A0; 0x10D30; 0x11066; 0x110F0; 0x11136; 0x111D0; 0x112F0; 0x11450;
   0x114D0; 0x11650; 0x116C0; 0x11730; 0x118E0; 0x11950; 0x11C50; 0x11D50;
   0x11DA0; 0x16A60; 0x16AC0; 0x16B50; 0x1D7CE; 0x1D7D8; 0x1D7E2; 0x1D7EC;
   0x1D7F6; 0x1E140; 0x1E2F0; 0x1E950; 0x1FBF0]%N.

(** The value of a decimal digit from 127 on. *)
Definition unicode_decimal (c : N) : option N :=
  (fun zero => c - zero)%N
    <$> List.find (fun zero => (zero <=? c) && (c <=? zero + 9))%N decimal_zeros.

(** The six bits a continuation byte [10xxxxxx] carries. *)
Definition continuation (a : ascii) : option N :=
  let n := N_of_ascii a in
  if ((0x80 <=? n) && (n <=? 0xBF))%N then Some (n - 0x80)%N else None.

(** The code points of a string; [None] when its bytes are no UTF-8 (a
    stray or missing continuation byte, an overlong form, a value beyond
    [0x10FFFF]): such bytes stand for no Python string.  A lone surrogate,
    which a Python string may hold, is read from its three-byte form. *)
Fixpoint code_points (l : list ascii) : option (list N) :=
  match l with
  | [] => Some []
  | a :: r =>
      let n := N_of_ascii a in
      if (n <? 0x80)%N then cons n <$> code_points r
      else if (n <? 0xE0)%N then
        match r with
        | b1 :: r1 =>
            x1 ← continuation b1;
            let c := ((n - 0xC0) * 64 + x1)%N in
            if ((0xC0 <=? n) && (0x80 <=? c))%N
            then cons c <$> code_points r1 else None
        | _ => None
        end
      else if (n <? 0xF0)%N then
        match r with
        | b1 :: b2 :: r2 =>
            x1 ← continuation b1;
            x2 ← continuation b2;
            let c := (((n - 0xE0) * 64 + x1) * 64 + x2)%N in
            if (0x800 <=? c)%N then cons c <$> code_points r2 else None
        | _ => None
        end
      else
        match r with
        | b1 :: b2 :: b3 :: r3 =>
            x1 ← continuation b1;
            x2 ← continuation b2;
            x3 ← continuation b3;
            let c := ((((n - 0xF0) * 64 + x1) * 64 + x2) * 64 + x3)%N in
            if ((0x10000 <=? c) && (c <=? 0x10FFFF))%N
            then cons c <$> code_points r3 else None
        | _ => None
        end
  end.

(** What [int] reads a code point as; [None]: no part of a number. *)
Definition ascii_form (c : N) : option ascii :=
  if (c <? 127)%N then Some (ascii_of_N c)
  else if unicode_space c then Some " "%char
  else (fun d => ascii_of_N (48 + d)) <$> unicode_decimal c.

Definition digit_val (a : ascii) : option Z :=
  let n := nat_of_ascii a in
  if ((48 <=? n) && (n <=? 57))%nat then Some (Z.of_nat n - 48) else None.

(** digits with single underscores between them *)
Fixpoint parse_digits (acc : Z) (after_digit : bool) (l : list ascii) : option Z :=
  match l with
  | [] => if after_digit then Some acc else None
  | a :: r =>
      if Ascii.eqb a "_" then
        if after_digit then parse_digits acc false r else None
      else
        match digit_val a with
        | Some d => parse_digits (10 * acc + d) true r
        | None => None
        end
  end.

Fixpoint lstrip (l : list ascii) : list ascii :=
  match l with
  | a :: r => if is_space a then lstrip r else l
  | [] => []
  end.

Definition strip (l : list ascii) : list ascii :=
  rev (lstrip (rev (lstrip l))).

(** Reading the ASCII form: surrounding white space, an optional sign, and
    the digits. *)
Definition int_of_ascii (l : list ascii) : option Z :=
  match strip l with
  | a :: r =>
      if Ascii.eqb a "-" then Z.opp <$> parse_digits 0 false r
      else if Ascii.eqb a "+" then parse_digits 0 false r
      else parse_digits 0 false (a :: r)
  | [] => None
  end.

(** [int(s)] for a string; [None]: [ValueError]. *)
Definition int_of_string (s : string) : option Z :=
  cps ← code_points (list_ascii_of_string s);
  l ← mapM ascii_form cps;
  int_of_ascii l.

Definition py_int (v : pyval) : outcome Z :=
  match v with
  | PInt n => Returns n
  | PBool b => Returns (if b then 1 else 0)
  | PStr s => match int_of_string s with
              | Some n => Returns n
              | None => Raises ValueError
              end
  | PNone | PList _ | PDict _ => Raises TypeError
  end.

(** *** [a == b]

    Numbers compare by value ([True == 1]), strings by their characters,
    lists item by item, dicts key by key; values of different kinds are
    unequal. *)
Fixpoint py_eq (a b : pyval) {struct a} : bool :=
  match a, b with
  | PNone, PNone => true
  | PBool x, PBool y => Bool.eqb x y
  | PBool x, PInt n => (if x then 1 else 0) =? n
  | PInt n, PBool y => n =? (if y then 1 else 0)
  | PInt n, PInt m => n =? m
  | PStr s, PStr t => String.eqb s t
  | PList l, PList l' =>
      (fix all_eq (l l' : list pyval) {struct l} : bool :=
         match l, l' with
         | [], [] => true
         | x :: r, y :: r' => py_eq x y && all_eq r r'
         | _, _ => false
         end) l l'
  | PDict d, PDict d' =>
      Nat.eqb (size d) (size d')
      && map_fold (fun k v acc =>
                     acc && match d' !! k with
                            | Some v' => py_eq v v'
                            | None => false
                            end) true d
  | _, _ => false
  end.

(** *** [str(...)] and f-string formatting

    [repr] is Python's rendering of lists and dicts, which the transports
    only ever paste into identifiers and messages. *)
Definition py_str (repr : pyval -> string) (v : pyval) : string :=
  match v with
  | PNone => "None"
  | PBool true => "True"
  | PBool false => "False"
  | PInt n => pretty n
  | PStr s => s
  | PList _ | PDict _ => repr v
  end.

Definition of_option_string (o : option string) : pyval :=
  match o with Some s => PStr s | None => PNone end.

End Py.
Export Py.

(* ===================================================================== *)
(** ** Blocks, chat-history files and the world                           *)
(* ===================================================================== *)

Module Schema.

(** Modelled from the spec: the mime types of [Block] are not among the
    sources.  The kinds are those of the send-mechanism contract (4.5: "text,
    image, audio, video"); [Other] stands for an unset or unsupported mime
    type. *)
Inductive BlockKind : Type := Text | Image | Audio | Video | Other.

(** Modelled from the spec: [Tag] is not among the sources.  Tags are
    structured metadata (3) that the transports only pass along. *)
Record Tag : Type := { tag_kind : string; tag_name : string }.

(** Modelled from the spec: [Block] is not among the sources.  A block
    carries text (stored as given, [PNone] when absent; the validation that
    [Block] itself may apply is not modelled), a url, a kind, tags, and the
    chat id and message id that the properties [chat_id] and [message_id]
    read ([PNone]: unset). *)
Record Block : Type := {
  text : pyval;
  url : option string;
  mime_type : BlockKind;
  chat_id : pyval;
  message_id : pyval;
  tags : list Tag
}.

(** Modelled from the spec: the constructor of [Block], as called with
    [Block(text=t)] and [Block(text=t, url=u)]: no mime type, no ids, no tags. *)
Definition new_block (t : pyval) (u : option string) : Block :=
  {| text := t; url := u; mime_type := Other;
     chat_id := PNone; message_id := PNone; tags := [] |}.

(** Modelled from the spec: storing the chat id that the property [chat_id]
    reads, and likewise the message id; what the setters below do to a block
    that has none. *)
Definition with_chat_id (c : pyval) (b : Block) : Block :=
  {| text := text b; url := url b; mime_type := mime_type b;
     chat_id := c; message_id := message_id b; tags := tags b |}.

Definition with_message_id (m : pyval) (b : Block) : Block :=
  {| text := text b; url := url b; mime_type := mime_type b;
     chat_id := chat_id b; message_id := m; tags := tags b |}.

(** Modelled from the spec: [Block.set_chat_id] is not among the sources, and
    the specification has no sentence on a block that already carries a chat
    id.  The setter is modelled as the steamship library's [Block] has it: an
    id is set once.  On a block without chat id the given one is stored; on a
    block that carries an equal one ([==]) nothing is done; on a block that
    carries another one a [SteamshipError] is raised and the block stays as
    it is.  The result is the block as the call leaves it.  A chat id of
    [None] counts as none: a block that was given [None] as its chat id is
    not told apart from a block that was given none. *)
Definition set_chat_id (c : pyval) (b : Block) : outcome Block :=
  if is_none (chat_id b) then Returns (with_chat_id c b)
  else if py_eq (chat_id b) c then Returns b
  else Raises (SteamshipError (ChatIdAlreadySet (chat_id b) c)).

(** Modelled from the spec: [Block.set_message_id] is not among the sources;
    as [set_chat_id], for the message id. *)
Definition set_message_id (m : pyval) (b : Block) : outcome Block :=
  if is_none (message_id b) then Returns (with_message_id m b)
  else if py_eq (message_id b) m then Returns b
  else Raises (SteamshipError (MessageIdAlreadySet (message_id b) m)).

(** Modelled from the spec: [Block.is_text], [is_image], [is_audio] and
    [is_video] are not among the sources; they test the block's kind. *)
Definition is_text (b : Block) : bool :=
  match mime_type b with Text => true | _ => false end.

Definition is_image (b : Block) : bool :=
  match mime_type b with Image => true | _ => false end.

Definition is_audio (b : Block) : bool :=
  match mime_type b with Audio => true | _ => false end.

Definition is_video (b : Block) : bool :=
  match mime_type b with Video => true | _ => false end.

(** [Metadata = Dict[str, Any]] *)
Abbreviation Metadata := (gmap string pyval).

(** [context_keys: Dict[str, str]] *)
Abbreviation ContextKeys := (gmap string string).

(** Modelled from the spec: the chat history's entries are not among the
    sources.  An entry is attributed to the user or to the agent (4.3) and
    carries text and tags (3). *)
Inductive Role : Type := User | Assistant.

Record Entry : Type := {
  entry_role : Role;
  entry_text : pyval;
  entry_tags : list Tag
}.

(** Modelled from the spec: [File] is not among the sources.  It is the
    persistent log behind a [ChatHistory] (4.3): an id, the context keys it
    belongs to, its tags, and its entries in the order they were appended. *)
Record File : Type := {
  file_id : string;
  file_keys : ContextKeys;
  file_tags : list Tag;
  file_blocks : list Entry
}.

(** Outbound calls to the provider: [requests.get(url, params=...)] and
    [requests.post(url=..., files={key: f})]. *)
Inductive HttpRequest : Type :=
| HttpGet (url : string) (params : list (string * pyval))
| HttpPostFile (url : string) (key : string) (content : list Byte.byte).

Record HttpResponse : Type := {
  status_code : Z;
  resp_text : string;
  resp_json : option pyval
}.

(** [logging.error] records. *)
Inductive LogRecord : Type :=
| ErrorSendingMessage (resp_text : string) (status : Z)
| UnableToSendBlock (kind : BlockKind).

(** The state a request runs against. *)
Record World : Type := {
  files : list File;
  caches : gmap (string * ContextKeys) (gmap string string);
  http_log : list HttpRequest;
  error_log : list LogRecord;
  agent_runs : nat;
  uuids_drawn : nat;
  (** the widget transport's [message_output] attribute; [None]: unset *)
  message_output : option (list Block)
}.

Definition with_files (fs : list File) (w : World) : World :=
  {| files := fs; caches := caches w; http_log := http_log w;
     error_log := error_log w; agent_runs := agent_runs w;
     uuids_drawn := uuids_drawn w; message_output := message_output w |}.

Definition with_caches (cs : gmap (string * ContextKeys) (gmap string string))
    (w : World) : World :=
  {| files := files w; caches := cs; http_log := http_log w;
     error_log := error_log w; agent_runs := agent_runs w;
     uuids_drawn := uuids_drawn w; message_output := message_output w |}.

Definition with_http_log (l : list HttpRequest) (w : World) : World :=
  {| files := files w; caches := caches w; http_log := l;
     error_log := error_log w; agent_runs := agent_runs w;
     uuids_drawn := uuids_drawn w; message_output := message_output w |}.

Definition with_error_log (l : list LogRecord) (w : World) : World :=
  {| files := files w; caches := caches w; http_log := http_log w;
     error_log := l; agent_runs := agent_runs w;
     uuids_drawn := uuids_drawn w; message_output := message_output w |}.

Definition with_agent_runs (n : nat) (w : World) : World :=
  {| files := files w; caches := caches w; http_log := http_log w;
     error_log := error_log w; agent_runs := n;
     uuids_drawn := uuids_drawn w; message_output := message_output w |}.

Definition with_uuids_drawn (n : nat) (w : World) : World :=
  {| files := files w; caches := caches w; http_log := http_log w;
     error_log := error_log w; agent_runs := agent_runs w;
     uuids_drawn := n; message_output := message_output w |}.

Definition with_message_output (o : option (list Block)) (w : World) : World :=
  {| files := files w; caches := caches w; http_log := http_log w;
     error_log := error_log w; agent_runs := agent_runs w;
     uuids_drawn := uuids_drawn w; message_output := o |}.

Definition empty_world : World :=
  {| files := []; caches := ∅; http_log := []; error_log := [];
     agent_runs := 0; uuids_drawn := 0; message_output := None |}.

End Schema.
Export Schema.

(* ===================================================================== *)
(** ** Computations: state and exceptions                                 *)
(* ===================================================================== *)

Module Monad.

Definition M (A : Type) : Type := World -> outcome A * World.

Definition ret {A} (a : A) : M A := fun w => (Returns a, w).

Definition raise {A} (e : exn) : M A := fun w => (Raises e, w).

Definition bind {A B} (c : M A) (k : A -> M B) : M B :=
  fun w =>
    match c w with
    | (Returns a, w') => k a w'
    | (Raises e, w') => (Raises e, w')
    end.

(** [try: body except Exception as e: handler e] *)
Definition try_except {A} (body : M A) (handler : exn -> M A) : M A :=
  fun w =>
    match body w with
    | (Returns a, w') => (Returns a, w')
    | (Raises e, w') => handler e w'
    end.

(** an expression that may raise, evaluated without touching the world *)
Definition lift {A} (o : outcome A) : M A := fun w => (o, w).

Definition gets {A} (f : World -> A) : M A := fun w => (Returns (f w), w).

Definition modify (f : World -> World) : M unit := fun w => (Returns tt, f w).

(** [for x in l: body x] *)
Fixpoint for_each {A} (body : A -> M unit) (l : list A) : M unit :=
  match l with
  | [] => ret tt
  | x :: r => bind (body x) (fun _ => for_each body r)
  end.

(** [for x in l: body x] where the body updates [x] in place: the items as
    the loop leaves them. *)
Fixpoint update_each {A} (body : A -> M A) (l : list A) : M (list A) :=
  match l with
  | [] => ret []
  | x :: r =>
      bind (body x) (fun x' => bind (update_each body r) (fun r' => ret (x' :: r')))
  end.

#[global] Instance M_ret : MRet M := @ret.
#[global] Instance M_bind : MBind M := fun A B k c => bind c k.

End Monad.
Export Monad.

(* ===================================================================== *)
(** ** What lies outside the program                                      *)
(* ===================================================================== *)

Module Platform.

(** The provider answers a request knowing the calls made so far; the
    platform serves a block's bytes, and supplies identifiers and the text
    of error replies. *)
Record Platform : Type := {
  py_repr : pyval -> string;
  provider : list HttpRequest -> HttpRequest -> HttpResponse;
  block_raw : Block -> outcome (list Byte.byte);
  uuid4 : nat -> string;
  error_text : option exn -> string
}.

Section Calls.
Context (P : Platform).

(** [requests.get] / [requests.post]: the call is logged, the provider's
    response returned.  The provider always answers: a connection that fails
    is outside the model. *)
Definition request (r : HttpRequest) : M HttpResponse :=
  fun w => (Returns (provider P (http_log w) r),
            with_http_log (http_log w ++ [r]) w).

(** [response.json()] *)
Definition json (r : HttpResponse) : outcome pyval :=
  match resp_json r with
  | Some v => Returns v
  | None => Raises JSONDecodeError
  end.

(** [logging.error(...)] *)
Definition logging_error (r : LogRecord) : M unit :=
  modify (fun w => with_error_log (error_log w ++ [r]) w).

(** [str(uuid.uuid4())] *)
Definition draw_uuid : M string :=
  fun w => (Returns (uuid4 P (uuids_drawn w)),
            with_uuids_drawn (S (uuids_drawn w)) w).
End Calls.

End Platform.
Export Platform.

(* ===================================================================== *)
(** ** steamship/agents/schema/context.py                                 *)
(* ===================================================================== *)

Module ContextSchema.

(** Modelled from the spec: the client class [Steamship] is not among the
    sources.  It is a handle on the workspace, whose state the [World] is. *)
Record Steamship : Type := { workspace : string }.

(** Modelled from the spec: [ChatHistory] is not among the sources.  It
    holds the file it was resolved to ([chat_history.file], whose id is the
    context's id). *)
Record ChatHistory : Type := { file : File }.

(** Modelled from the spec: [ActionCache] and [LLMCache] are not among the
    sources.  A cache is a handle scoped by the context keys it was resolved
    with (4.2: the conversation is baked in at construction). *)
Record ActionCache : Type := { action_cache_keys : ContextKeys }.

Record LLMCache : Type := { llm_cache_keys : ContextKeys }.

(** Modelled from the spec: [Action] is not among the sources.  A completed
    step records the tool, its input and its output (3). *)
Record Action : Type := {
  tool : string;
  input : list Block;
  output : list Block
}.

(** [EmitFunc = Callable[[List[Block], Metadata], None]] *)
Definition EmitFunc : Type := list Block -> Metadata -> M unit.

Record AgentContext : Type := {
  metadata : Metadata;
  client : Steamship;
  chat_history : ChatHistory;
  completed_steps : list Action;
  emit_funcs : list EmitFunc;
  action_cache : option ActionCache;
  llm_cache : option LLMCache
}.

(** [AgentContext.id] *)
Definition id (context : AgentContext) : string :=
  file_id (file (chat_history context)).

(** [context.emit_funcs = fs] *)
Definition set_emit_funcs (fs : list EmitFunc) (context : AgentContext)
    : AgentContext :=
  {| metadata := metadata context; client := client context;
     chat_history := chat_history context;
     completed_steps := completed_steps context; emit_funcs := fs;
     action_cache := action_cache context; llm_cache := llm_cache context |}.

(** The three resolution calls that [get_or_create] makes.  Their classes
    ([ChatHistory], [ActionCache], [LLMCache]) are not among the sources, so
    [get_or_create] is written over any implementation of them. *)
Class Persistence : Type := {
  ChatHistory_get_or_create :
    Steamship -> ContextKeys -> option (list Tag) -> bool -> M ChatHistory;
  ActionCache_get_or_create : Steamship -> ContextKeys -> M ActionCache;
  LLMCache_get_or_create : Steamship -> ContextKeys -> M LLMCache
}.

(** [if flag:] for an [Optional[bool]] *)
Definition flag_set (flag : option bool) : bool :=
  match flag with Some true => true | _ => false end.

(** [AgentContext.get_or_create].  The context is built by [AgentContext()],
    whose [__init__] sets the empty metadata, completed steps and emit funcs,
    and then assigned its chat history, client and caches. *)
Definition get_or_create `{Persistence} (client : Steamship)
    (context_keys : ContextKeys) (tags : option (list Tag)) (searchable : bool)
    (use_llm_cache use_action_cache : option bool) : M AgentContext :=
  history ← ChatHistory_get_or_create client context_keys tags searchable;
  action_cache ←
    (if flag_set use_action_cache
     then c ← ActionCache_get_or_create client context_keys; ret (Some c)
     else ret None);
  llm_cache ←
    (if flag_set use_llm_cache
     then c ← LLMCache_get_or_create client context_keys; ret (Some c)
     else ret None);
  ret {| metadata := ∅; client := client; chat_history := history;
         completed_steps := []; emit_funcs := [];
         action_cache := action_cache; llm_cache := llm_cache |}.

End ContextSchema.
Export ContextSchema.

(* ===================================================================== *)
(** ** The persistent store behind chat histories and caches              *)
(* ===================================================================== *)

Module Store.

(** Modelled from the spec: the lookup behind [ChatHistory.get_or_create] is
    not among the sources.  The log of a conversation is the first file of the
    workspace that carries its context keys. *)
Definition get_existing_file (context_keys : ContextKeys) (w : World)
    : option File :=
  find (fun f => bool_decide (file_keys f = context_keys)) (files w).

(** Modelled from the spec: [ChatHistory.get_or_create] is not among the
    sources.  It resolves the context keys to the workspace's log for them
    and creates an empty one, under a new id, when there is none (4.1, 4.3:
    the same keys always resolve to the same persistent object, and repeated
    calls do not duplicate storage). *)
Definition history_get_or_create (client : Steamship)
    (context_keys : ContextKeys) (tags : option (list Tag)) (searchable : bool)
    : M ChatHistory :=
  fun w =>
    match get_existing_file context_keys w with
    | Some f => (Returns {| file := f |}, w)
    | None =>
        let f := {| file_id := pretty (length (files w));
                    file_keys := context_keys;
                    file_tags := default [] tags;
                    file_blocks := [] |} in
        (Returns {| file := f |}, with_files (files w ++ [f]) w)
    end.

(** Modelled from the spec: appending to a file is not among the sources.
    The entry goes to the end of the file with the given id (4.3: entries are
    never reordered, edited or removed). *)
Definition append_entry (e : Entry) (target : string) (f : File) : File :=
  if String.eqb (file_id f) target
  then {| file_id := file_id f; file_keys := file_keys f;
          file_tags := file_tags f; file_blocks := file_blocks f ++ [e] |}
  else f.

(** Modelled from the spec: [ChatHistory.append_user_message] and
    [append_agent_message] are not among the sources.  They append one entry,
    attributed to the user or to the agent, to the log the history was
    resolved to (4.3). *)
Definition append_message (role : Role) (h : ChatHistory) (text : pyval)
    (tags : list Tag) : M unit :=
  let e := {| entry_role := role; entry_text := text; entry_tags := tags |} in
  modify (fun w =>
    with_files (map (append_entry e (file_id (file h))) (files w)) w).

Definition append_user_message := append_message User.

Definition append_agent_message := append_message Assistant.

(** The entries of the conversation's log, none when it has no log. *)
Definition history_entries (context_keys : ContextKeys) (w : World)
    : list Entry :=
  match get_existing_file context_keys w with
  | Some f => file_blocks f
  | None => []
  end.

(** Modelled from the spec: the cache store is not among the sources.  A
    cache is a key-value store named by the cache and the conversation (4.1);
    resolving it creates the empty store when it is missing. *)
Definition cache_get_or_create (name : string) (context_keys : ContextKeys)
    : M unit :=
  modify (fun w =>
    match caches w !! (name, context_keys) with
    | Some _ => w
    | None => with_caches (<[(name, context_keys) := ∅]> (caches w)) w
    end).

(** Modelled from the spec: [lookup] of the caches is not among the sources.
    It reads one fingerprint and misses when nothing was stored for it
    (4.2). *)
Definition cache_lookup (name : string) (context_keys : ContextKeys)
    (fingerprint : string) (w : World) : option string :=
  caches w !! (name, context_keys) ≫= fun c => c !! fingerprint.

(** Modelled from the spec: [update] of the caches is not among the sources.
    It stores the result under the fingerprint, over any earlier one (4.2). *)
Definition cache_update (name : string) (context_keys : ContextKeys)
    (fingerprint result : string) : M unit :=
  modify (fun w =>
    with_caches
      (<[(name, context_keys) :=
           <[fingerprint := result]>
             (default ∅ (caches w !! (name, context_keys)))]> (caches w)) w).

Definition action_cache_name : string := "action-cache".

Definition llm_cache_name : string := "llm-cache".

(** Modelled from the spec: [ActionCache.get_or_create] is not among the
    sources.  It resolves the action cache's store for the context keys. *)
Definition action_cache_get_or_create (client : Steamship)
    (context_keys : ContextKeys) : M ActionCache :=
  _ ← cache_get_or_create action_cache_name context_keys;
  ret {| action_cache_keys := context_keys |}.

(** Modelled from the spec: [LLMCache.get_or_create] is not among the
    sources.  It resolves the llm cache's store for the context keys. *)
Definition llm_cache_get_or_create (client : Steamship)
    (context_keys : ContextKeys) : M LLMCache :=
  _ ← cache_get_or_create llm_cache_name context_keys;
  ret {| llm_cache_keys := context_keys |}.

(** The persistence layer [get_or_create] runs on. *)
#[global] Instance store : Persistence := {|
  ChatHistory_get_or_create := history_get_or_create;
  ActionCache_get_or_create := action_cache_get_or_create;
  LLMCache_get_or_create := llm_cache_get_or_create
|}.

End Store.
Export Store.

(* ===================================================================== *)
(** ** The agent service and the transport base class                     *)
(* ===================================================================== *)

Module Service.

(** Modelled from the spec: agents and [AgentService.run_agent] are not
    among the sources.  An agent run is a sequence of events and a final
    outcome: the agent emits blocks (3: "when the agent produces a final (or
    intermediate) result") or writes an agent message to the chat history
    (4.3), and in the end returns or raises. *)
Inductive AgentEvent : Type :=
| Emission (blocks : list Block)
| AgentMessage (text : pyval) (tags : list Tag).

Record AgentRun : Type := {
  events : list AgentEvent;
  result : outcome (option (list Block))
}.

(** The agent chooses its run from the context and the world it starts
    in. *)
Definition Agent : Type := AgentContext -> World -> AgentRun.

(** Modelled from the spec: [AgentService] is not among the sources.  The
    conversation identity is derived deterministically from the transport's
    identifier (3; [context_keys_for]); the cache flags are those the service
    was constructed with; it has a default agent. *)
Record AgentService : Type := {
  service_client : Steamship;
  use_llm_cache : option bool;
  use_action_cache : option bool;
  context_keys_for : pyval -> ContextKeys;
  default_agent : Agent
}.

(** Modelled from the spec: [AgentService.get_default_agent]. *)
Definition get_default_agent (service : AgentService) : Agent :=
  default_agent service.

(** Modelled from the spec: [AgentService.build_default_context] is not
    among the sources.  It resolves the agent context of the conversation the
    identifier stands for (4.5, step 3), with the service's cache flags. *)
Definition build_default_context (service : AgentService)
    (context_id : pyval) : M AgentContext :=
  get_or_create (service_client service)
    (context_keys_for service context_id) None true
    (use_llm_cache service) (use_action_cache service).

(** Modelled from the spec: an emission event invokes every registered
    emission callback with the emitted blocks and the context's metadata, in
    registration order (3). *)
Definition emit (context : AgentContext) (blocks : list Block) : M unit :=
  for_each (fun func : EmitFunc => func blocks (metadata context))
    (emit_funcs context).

(** Modelled from the spec: what one event of a run does. *)
Definition perform (context : AgentContext) (ev : AgentEvent) : M unit :=
  match ev with
  | Emission blocks => emit context blocks
  | AgentMessage text tags =>
      append_agent_message (chat_history context) text tags
  end.

(** Modelled from the spec: [AgentService.run_agent] is not among the
    sources.  The run is counted, its events are performed in order, and its
    outcome is the outcome of the call; an exception raised by an emission
    callback ends the run and is the outcome. *)
Definition run_agent (service : AgentService) (agent : Agent)
    (context : AgentContext) : M (option (list Block)) :=
  fun w =>
    let run := agent context w in
    (_ ← modify (fun w => with_agent_runs (S (agent_runs w)) w);
     _ ← for_each (perform context) (events run);
     lift (result run)) w.

End Service.
Export Service.

Module TransportBase.

(** The two methods a transport implements. *)
Class Transport (T : Type) : Type := {
  _send : T -> list Block -> Metadata -> M unit;
  _parse_inbound : T -> pyval -> option pyval -> M (option Block)
}.

(** Modelled from the spec: [Transport.send] is not among the sources.  It
    hands over to the transport's [_send] (9: each transport exposes [send]);
    a missing metadata argument is the empty dict. *)
Definition send {T} `{Transport T} (self : T) (blocks : list Block)
    (metadata : option Metadata) : M unit :=
  _send self blocks (default ∅ metadata).

(** Modelled from the spec: [Transport.parse_inbound] is not among the
    sources.  It hands over to the transport's [_parse_inbound] (9). *)
Definition parse_inbound {T} `{Transport T} (self : T) (payload : pyval)
    (context : option pyval) : M (option Block) :=
  _parse_inbound self payload context.

(** Modelled from the spec: [Transport.response_for_exception] is not among
    the sources.  It builds the user-visible error block (4.5, step 5) for
    the given chat id, a new block that is given that chat id; the wording
    is the platform's. *)
Definition response_for_exception (P : Platform) (e : option exn)
    (chat_id : pyval) : Block :=
  with_chat_id chat_id (new_block (PStr (error_text P e)) None).

End TransportBase.
Export TransportBase.

(* ===================================================================== *)
(** ** steamship/agents/mixins/transports/telegram.py                     *)
(* ===================================================================== *)

Module Telegram.

(** The attributes of a [TelegramTransport] that its methods read. *)
Record TelegramTransport : Type := {
  api_root : string;
  bot_token : string;
  agent_service : AgentService
}.

Section Methods.
Context (P : Platform).

(** The body of the loop of [_send]. *)
Definition send_block (self : TelegramTransport) (block : Block) : M unit :=
  let chat_id := chat_id block in
  if is_text block || truthy (text block) then
    n ← lift (py_int chat_id);
    let params := [("chat_id", PInt n); ("text", text block)] in
    _ ← request P (HttpGet (api_root self ++ "/sendMessage") params);
    ret tt
  else if is_image block || is_audio block || is_video block then
    let '(suffix, key) :=
      if is_image block then ("sendPhoto", "photo")
      else if is_audio block then ("sendAudio", "audio")
      else ("sendVideo", "video") in
    _bytes ← lift (block_raw P block);
    resp ← request P
      (HttpPostFile
         (api_root self ++ "/" ++ suffix ++ "?chat_id=" ++ py_str (py_repr P) chat_id)
         key _bytes);
    if negb (status_code resp =? 200) then
      _ ← logging_error (ErrorSendingMessage (resp_text resp) (status_code resp));
      raise (SteamshipError (MessageNotSent chat_id (resp_text resp)))
    else ret tt
  else
    logging_error (UnableToSendBlock (mime_type block)).

(** [_send]: the blocks are sent one after the other; an exception ends the
    loop. *)
Definition _send (self : TelegramTransport) (blocks : list Block)
    (metadata : Metadata) : M unit :=
  for_each (send_block self) blocks.

(** [_get_file]: the ["result"] of the provider's [getFile]. *)
Definition _get_file (self : TelegramTransport) (file_id : pyval) : M pyval :=
  resp ← request P (HttpGet (api_root self ++ "/getFile") [("file_id", file_id)]);
  j ← lift (json resp);
  lift (getitem j "result").

(** [_get_file_url]: the download url of the file's ["file_path"]. *)
Definition _get_file_url (self : TelegramTransport) (file_id : pyval)
    : M string :=
  f ← _get_file self file_id;
  file_path ← lift (getitem f "file_path");
  ret ("https://api.telegram.org/file/bot" ++ bot_token self ++ "/"
         ++ py_str (py_repr P) file_path).

(** [_parse_inbound]: the checks on chat id and message id come first, then
    a voice or video note, then the text. *)
Definition _parse_inbound (self : TelegramTransport) (payload : pyval)
    (context : option pyval) : M (option Block) :=
  chat ← lift (get_method payload "chat" PNone);
  if is_none chat then raise (SteamshipError (NoChatFound payload)) else
  chat_id ← lift (get_method chat "id" PNone);
  if is_none chat_id then raise (SteamshipError (NoChatIdFound payload)) else
  if negb (isinstance_int chat_id) then
    raise (SteamshipError (BadChatId chat_id)) else
  message_id ← lift (get_method payload "message_id" PNone);
  if is_none message_id then
    raise (SteamshipError (NoMessageIdFound payload)) else
  if negb (isinstance_int message_id) then
    raise (SteamshipError (BadMessageId message_id)) else
  voice ← lift (get_method payload "voice" PNone);
  video_or_voice ←
    (if truthy voice then ret voice
     else lift (get_method payload "video_note" PNone));
  if truthy video_or_voice then
    file_id ← lift (get_method video_or_voice "file_id" PNone);
    file_url ← _get_file_url self file_id;
    text ← lift (get_method payload "text" PNone);
    let block := new_block text (Some file_url) in
    block ← lift (set_chat_id (PStr (py_str (py_repr P) chat_id)) block);
    block ← lift (set_message_id (PStr (py_str (py_repr P) message_id)) block);
    ret (Some block)
  else
    message_text ← lift (get_method payload "text" PNone);
    if negb (is_none message_text) then
      let result := new_block message_text None in
      result ← lift (set_chat_id (PStr (py_str (py_repr P) chat_id)) result);
      result ←
        lift (set_message_id (PStr (py_str (py_repr P) message_id)) result);
      ret (Some result)
    else ret None.

#[global] Instance telegram_transport : Transport TelegramTransport := {|
  TransportBase._send := _send;
  TransportBase._parse_inbound := _parse_inbound
|}.

(** [build_emit_func]: the emit func sets the chat id of every block (the
    blocks are updated in place) and then sends them; a setter that raises
    ends the emit func before anything is sent. *)
Definition build_emit_func (self : TelegramTransport) (chat_id : pyval)
    : EmitFunc :=
  fun blocks metadata =>
    blocks ← update_each (fun block => lift (set_chat_id chat_id block)) blocks;
    send self blocks (Some metadata).

(** The [try] block of [telegram_respond]. *)
Definition respond_try (self : TelegramTransport) (message chat_id : pyval)
    : M unit :=
  incoming_message ← parse_inbound self message None;
  match incoming_message with
  | Some incoming_message =>
      context ← build_default_context (agent_service self) chat_id;
      _ ← append_user_message (chat_history context)
            (text incoming_message) (tags incoming_message);
      let context := set_emit_funcs [build_emit_func self chat_id] context in
      response ← run_agent (agent_service self)
                   (get_default_agent (agent_service self)) context;
      match response with
      | Some response => send self response None
      | None => ret tt
      end
  | None => ret tt
  end.

(** Its [except Exception as e] block. *)
Definition respond_except (self : TelegramTransport) (chat_id : pyval)
    (e : exn) : M unit :=
  let response := response_for_exception P (Some e) chat_id in
  if negb (is_none chat_id) then send self [response] None else ret tt.

(** The endpoint [telegram_respond]; [kwargs] is the decoded body. *)
Definition telegram_respond (self : TelegramTransport)
    (kwargs : gmap string pyval) : M string :=
  let message := default (PDict ∅) (kwargs !! "message") in
  chat ← lift (get_method message "chat" (PDict ∅));
  chat_id ← lift (get_method chat "id" PNone);
  _ ← try_except (respond_try self message chat_id)
        (respond_except self chat_id);
  ret "OK".
End Methods.

End Telegram.

(* ===================================================================== *)
(** ** steamship/agents/mixins/transports/steamship_widget.py             *)
(* ===================================================================== *)

Module Widget.

(** The attributes of a [SteamshipWidgetTransport] that stay as they are; its
    [message_output] attribute, which requests assign, is part of the
    world. *)
Record SteamshipWidgetTransport : Type := {
  agent_service : AgentService
}.

Section Methods.
Context (P : Platform).

(** [_send]: nothing is pushed, the answer is the return value of
    [answer]. *)
Definition _send (self : SteamshipWidgetTransport) (blocks : list Block)
    (metadata : Metadata) : M unit :=
  ret tt.

(** [info] *)
Definition info (self : SteamshipWidgetTransport) : gmap string pyval := ∅.

(** [_parse_inbound]: the question is required, the session defaults to
    ["default"], the message id is drawn. *)
Definition _parse_inbound (self : SteamshipWidgetTransport) (payload : pyval)
    (context : option pyval) : M (option Block) :=
  message_text ← lift (get_method payload "question" PNone);
  if is_none message_text then
    raise (SteamshipError (NoQuestionFound payload)) else
  chat_id ← lift (get_method payload "chat_session_id" (PStr "default"));
  message_id ← draw_uuid P;
  let result := new_block message_text None in
  result ← lift (set_chat_id (PStr (py_str (py_repr P) chat_id)) result);
  result ← lift (set_message_id (PStr message_id) result);
  ret (Some result).

#[global] Instance widget_transport : Transport SteamshipWidgetTransport := {|
  TransportBase._send := _send;
  TransportBase._parse_inbound := _parse_inbound
|}.

(** [save_for_emit]: the emitted blocks become the buffer. *)
Definition save_for_emit (self : SteamshipWidgetTransport) : EmitFunc :=
  fun blocks metadata => modify (with_message_output (Some blocks)).

(** Reading an attribute of the [Optional[Block]] that [parse_inbound]
    returns. *)
Definition attributes_of (incoming_message : option Block) : M Block :=
  match incoming_message with
  | Some b => ret b
  | None => raise (AttributeError "chat_id")
  end.

(** [self.message_output]: the attribute exists once assigned. *)
Definition read_message_output : M (list Block) :=
  o ← gets message_output;
  match o with
  | Some blocks => ret blocks
  | None => raise (AttributeError "message_output")
  end.

(** The first half of [answer]: the message is parsed, its context resolved,
    the message appended to the chat history and the emit func registered. *)
Definition answer_context (self : SteamshipWidgetTransport)
    (payload : gmap string pyval) : M (Block * AgentContext) :=
  incoming_message ← parse_inbound self (PDict payload) None;
  incoming_message ← attributes_of incoming_message;
  context ← build_default_context (agent_service self)
              (chat_id incoming_message);
  _ ← append_user_message (chat_history context)
        (text incoming_message) (tags incoming_message);
  ret (incoming_message, set_emit_funcs [save_for_emit self] context).

(** The second half: the agent runs inside [try]/[except], and the buffer is
    returned. *)
Definition answer_run (self : SteamshipWidgetTransport)
    (incoming_message : Block) (context : AgentContext) : M (list Block) :=
  _ ← try_except
        (_ ← run_agent (agent_service self)
               (get_default_agent (agent_service self)) context;
         ret tt)
        (fun e =>
           modify (with_message_output
             (Some [response_for_exception P (Some e)
                      (chat_id incoming_message)])));
  read_message_output.

(** The endpoint [answer]; [payload] is the decoded body. *)
Definition answer (self : SteamshipWidgetTransport)
    (payload : gmap string pyval) : M (list Block) :=
  prepared ← answer_context self payload;
  answer_run self prepared.1 prepared.2.
End Methods.

End Widget.

(* ===================================================================== *)
(** ** What the statements below observe                                  *)
(* ===================================================================== *)

Module Observations.

(** Two worlds that differ at most in their cache stores. *)
Definition same_but_caches (w1 w2 : World) : Prop :=
  files w1 = files w2 /\ http_log w1 = http_log w2
  /\ error_log w1 = error_log w2 /\ agent_runs w1 = agent_runs w2
  /\ uuids_drawn w1 = uuids_drawn w2 /\ message_output w1 = message_output w2.

(** The contents of a cache store, empty when the store does not exist. *)
Definition cache_contents (name : string) (context_keys : ContextKeys)
    (w : World) : gmap string string :=
  default ∅ (caches w !! (name, context_keys)).

(** [payload.get("voice") or payload.get("video_note")] of a Telegram
    message. *)
Definition attachment (m : gmap string pyval) : pyval :=
  py_or (default PNone (m !! "voice")) (default PNone (m !! "video_note")).

(** The payload's chat is absent or [null], or it is a JSON object whose id
    is absent or [null].  (A chat that is present and no JSON object is not
    among these.) *)
Definition missing_chat_id (m : gmap string pyval) : Prop :=
  default PNone (m !! "chat") = PNone
  \/ exists c, m !! "chat" = Some (PDict c) /\ default PNone (c !! "id") = PNone.

(** The provider call that delivers to chat [c]: a [sendMessage] whose
    [chat_id] parameter is [int(c)], or a file upload whose url carries
    [?chat_id=c]. *)
Definition addressed_to (P : Platform) (self : Telegram.TelegramTransport)
    (c : pyval) (r : HttpRequest) : Prop :=
  match r with
  | HttpGet u params =>
      u = Telegram.api_root self ++ "/sendMessage"
      /\ exists n t, py_int c = Returns n
                     /\ params = [("chat_id", PInt n); ("text", t)]
  | HttpPostFile u key _ =>
      exists suffix,
        u = Telegram.api_root self ++ "/" ++ suffix ++ "?chat_id="
              ++ py_str (py_repr P) c
  end.

Definition is_emission (ev : AgentEvent) : bool :=
  match ev with Emission _ => true | AgentMessage _ _ => false end.

(** The block carries no chat id, or one equal to [c]: [set_chat_id c]
    accepts it. *)
Definition accepts_chat_id (c : pyval) (b : Block) : bool :=
  is_none (chat_id b) || py_eq (chat_id b) c.

(** An accepted block as [set_chat_id c] leaves it. *)
Definition addressed (c : pyval) (b : Block) : Block :=
  if is_none (chat_id b) then with_chat_id c b else b.

End Observations.
Export Observations.

(* ===================================================================== *)
(** ** Sample inputs                                                      *)
(* ===================================================================== *)

Module Samples.

(** A [getFile] answer naming the path of the file. *)
Definition file_answer : HttpResponse :=
  {| status_code := 200; resp_text := "";
     resp_json :=
       Some (PDict {[ "result" := PDict {[ "file_path" := PStr "voice/file_1.oga" ]} ]}) |}.

(** A provider that accepts every call. *)
Definition platform : Platform :=
  {| py_repr := fun _ => "{...}";
     provider := fun _ _ => file_answer;
     block_raw := fun _ => Returns [];
     uuid4 := fun n => "uuid-" ++ pretty n;
     error_text := fun _ => "An error happened while creating a response" |}.

(** A provider that refuses every call. *)
Definition refusal : HttpResponse :=
  {| status_code := 400; resp_text := "Bad Request"; resp_json := None |}.

Definition refusing : Platform :=
  {| py_repr := fun _ => "{...}";
     provider := fun _ _ => refusal;
     block_raw := fun _ => Returns [];
     uuid4 := fun n => "uuid-" ++ pretty n;
     error_text := fun _ => "An error happened while creating a response" |}.

Definition hi_there : Block := new_block (PStr "hi there") None.

(** An agent that says nothing, and one whose run emits ["hi there"]. *)
Definition silent_agent : Agent :=
  fun _ _ => {| events := []; result := Returns None |}.

Definition greeting_agent : Agent :=
  fun _ _ => {| events := [Emission [hi_there]]; result := Returns None |}.

Definition context_keys_for_id (context_id : pyval) : ContextKeys :=
  {[ "id" := py_str (fun _ => "{...}") context_id ]}.

Definition service (agent : Agent) : AgentService :=
  {| service_client := {| workspace := "default" |};
     use_llm_cache := Some true;
     use_action_cache := Some true;
     context_keys_for := context_keys_for_id;
     default_agent := agent |}.

Definition telegram (agent : Agent) : Telegram.TelegramTransport :=
  {| Telegram.api_root := "https://api.telegram.org/bot123:abc";
     Telegram.bot_token := "123:abc";
     Telegram.agent_service := service agent |}.

Definition widget (agent : Agent) : Widget.SteamshipWidgetTransport :=
  {| Widget.agent_service := service agent |}.

(** [{"message": {"chat": null}}] *)
Definition null_chat_update : gmap string pyval :=
  {[ "message" := PDict {[ "chat" := PNone ]} ]}.

(** [{"message": {"chat": {"id": "abc"}, "message_id": 1}}] *)
Definition bad_chat_id_update : gmap string pyval :=
  {[ "message" :=
       PDict (<[ "chat" := PDict {[ "id" := PStr "abc" ]} ]>
                {[ "message_id" := PInt 1 ]}) ]}.

(** [{"chat": {"id": 7}, "voice": {"file_id": "F1"}}]: no message id *)
Definition voice_without_message_id : gmap string pyval :=
  <[ "chat" := PDict {[ "id" := PInt 7 ]} ]>
    {[ "voice" := PDict {[ "file_id" := PStr "F1" ]} ]}.

(** [{"chat": {"id": 7}, "message_id": 1, "voice": {"file_id": "F1"}}] *)
Definition voice_message : gmap string pyval :=
  <[ "chat" := PDict {[ "id" := PInt 7 ]} ]>
    (<[ "message_id" := PInt 1 ]>
       {[ "voice" := PDict {[ "file_id" := PStr "F1" ]} ]}).

(** [{"chat": {}, "message_id": 1, "text": "hi"}]: a chat without id *)
Definition chat_without_id : gmap string pyval :=
  <[ "chat" := PDict ∅ ]>
    (<[ "message_id" := PInt 1 ]> {[ "text" := PStr "hi" ]}).

(** [{"message": {"chat": {"id": 7}, "message_id": 1}}]: a group-join
    message, with nothing to answer *)
Definition join_message : gmap string pyval :=
  <[ "chat" := PDict {[ "id" := PInt 7 ]} ]> {[ "message_id" := PInt 1 ]}.

Definition join_update : gmap string pyval :=
  {[ "message" := PDict join_message ]}.

(** [{"question": "hello", "chat_session_id": "abc"}] *)
Definition hello_question : gmap string pyval :=
  <[ "question" := PStr "hello" ]> {[ "chat_session_id" := PStr "abc" ]}.

(** A world in which an earlier request left ["hi there"] in the widget's
    buffer. *)
Definition world_with_buffer : World :=
  with_message_output (Some [hi_there]) empty_world.

(** A text block for chat 1. *)
Definition text_block : Block := with_chat_id (PInt 1) (new_block (PStr "hi") None).

End Samples.

(* ===================================================================== *)
(** ** telegram.py: construction, webhook registration, file download     *)
(* ===================================================================== *)

Module TelegramSetup.

(** [TelegramTransportConfig]: both fields are [Optional[str]]. *)
Record TelegramTransportConfig : Type := {
  bot_token : option string;
  api_base : option string
}.

(** The defaults of the two fields. *)
Definition default_config : TelegramTransportConfig :=
  {| bot_token := Some ""; api_base := Some "https://api.telegram.org/bot" |}.

(** The attributes of the transport that construction and webhook
    registration read and assign.  Modelled from the spec: the invocation
    context of the agent service is not among the sources; of it only the
    service's url ([agent_service.context.invocable_url]) is read. *)
Record TelegramTransport : Type := {
  config : TelegramTransportConfig;
  self_bot_token : option string;
  api_root : string;
  agent_service : AgentService;
  invocable_url : string
}.

(** [a or b] for two [Optional[str]]: [a] when it is a non-empty string. *)
Definition or_else (a b : option string) : option string :=
  match a with
  | Some s => if String.eqb s "" then b else a
  | None => b
  end.

(** [if s:] for an [Optional[str]] *)
Definition nonempty (s : option string) : bool :=
  match s with
  | Some s => negb (String.eqb s "")
  | None => false
  end.

(** [f"{s}"] for an [Optional[str]] *)
Definition format (s : option string) : string :=
  match s with Some s => s | None => "None" end.

Definition store_identifier : string := "_telegram_config".

(** Modelled from the spec: [KeyValueStore] is not among the sources.  The
    bot token is kept under the key ["bot_token"] of the conversation-independent
    key-value store [_telegram_config] (6).  The stored value is the dict
    [{"token": t}]; the store keeps its one entry [t].  [stored_token] is
    [(self.store.get("bot_token") or {}).get("token")]. *)
Definition stored_token (w : World) : option string :=
  caches w !! (store_identifier, ∅) ≫= fun c => c !! "bot_token".

(** Modelled from the spec: [KeyValueStore.set], as used by
    [self.store.set("bot_token", {"token": t})]. *)
Definition store_token (t : string) : M unit :=
  modify (fun w =>
    with_caches
      (<[(store_identifier, ∅) :=
           <["bot_token" := t]>
             (default ∅ (caches w !! (store_identifier, ∅)))]> (caches w)) w).

(** [__init__]: the token of the config wins over the stored one.  The url
    of the service, which the methods read from the agent service's invocation
    context, is given with the agent service. *)
Definition __init__ (config : TelegramTransportConfig)
    (agent_service : AgentService) (invocable_url : string)
    : M TelegramTransport :=
  stored ← gets stored_token;
  let self_bot_token := or_else (bot_token config) stored in
  ret {| config := config;
         self_bot_token := self_bot_token;
         api_root := format (api_base config) ++ format self_bot_token;
         agent_service := agent_service;
         invocable_url := invocable_url |}.

(** [self.bot_token = t] *)
Definition set_bot_token (t : option string) (self : TelegramTransport)
    : TelegramTransport :=
  {| config := config self; self_bot_token := t; api_root := api_root self;
     agent_service := agent_service self; invocable_url := invocable_url self |}.

(** [self.api_root = r] *)
Definition set_api_root (r : string) (self : TelegramTransport)
    : TelegramTransport :=
  {| config := config self; self_bot_token := self_bot_token self;
     api_root := r; agent_service := agent_service self;
     invocable_url := invocable_url self |}.

(** [response.ok] of the [requests] library: the status is no client or
    server error. *)
Definition ok (r : HttpResponse) : bool :=
  negb ((400 <=? status_code r) && (status_code r <? 600)).

(** The call of [_instance_init]. *)
Definition set_webhook_request (self : TelegramTransport) : HttpRequest :=
  HttpGet (api_root self ++ "/setWebhook")
    [("url", PStr (invocable_url self ++ "telegram_respond"));
     ("allowed_updates", PList [PStr "message"]);
     ("drop_pending_updates", PBool true)].

Section Methods.
Context (P : Platform).

(** The message of the [SteamshipError] of [_instance_init], from the webhook
    url and the provider's answer. *)
Context (could_not_set_webhook : string -> string -> steamship_message).

(** [f"{e}"] of an exception. *)
Context (exception_text : exn -> string).

(** [_instance_init]; its [logging.info] record is not kept. *)
Definition _instance_init (self : TelegramTransport) : M unit :=
  let webhook_url := invocable_url self ++ "telegram_respond" in
  response ← request P (set_webhook_request self);
  if negb (ok response) then
    raise (SteamshipError
             (could_not_set_webhook webhook_url (resp_text response)))
  else ret tt.

(** [instance_init]: the transport as the call leaves it. *)
Definition instance_init (self : TelegramTransport) : M TelegramTransport :=
  if nonempty (self_bot_token self) then
    let self :=
      set_api_root
        (format (api_base (config self))
           ++ format (or_else (bot_token (config self)) (self_bot_token self)))
        self in
    _ ← try_except (_instance_init self) (fun _ => ret tt);
    ret self
  else ret self.

(** [connect_telegram]: the answer and the transport as the call leaves
    it. *)
Definition connect_telegram (self : TelegramTransport) (bot_token : string)
    : M (string * TelegramTransport) :=
  _ ← store_token bot_token;
  let self := set_bot_token (Some bot_token) self in
  try_except
    (self ← instance_init self; ret ("OK", self))
    (fun e =>
       ret ("Could not set webhook for bot. Exception: " ++ exception_text e,
            self)).
End Methods.

End TelegramSetup.

Module TelegramCalls.

Section Methods.
Context (P : Platform).

(** [response.content] *)
Context (content : HttpResponse -> list Byte.byte).

(** [_download_file] *)
Definition _download_file (self : Telegram.TelegramTransport)
    (file_id : pyval) : M (list Byte.byte) :=
  file_url ← Telegram._get_file_url P self file_id;
  result ← request P (HttpGet file_url []);
  if negb (status_code result =? 200) then
    raise (OtherError "Download file")
  else ret (content result).
End Methods.

End TelegramCalls.

(* ===================================================================== *)
(** ** steamship/experimental/package_starters/telegram_bot.py            *)
(* ===================================================================== *)

Module TelegramBot.

Section Methods.
Context (P : Platform).

(** The bot's transport: the class it imports is not among the sources, so
    [respond] is written over any transport. *)
Context {T : Type} `{Transport T}.

(** [create_response], which the bot's subclasses implement. *)
Context (create_response : Block -> M (option (list Block))).

(** The [try] block of [respond]. *)
Definition respond_try (telegram_transport : T) (message : pyval) : M unit :=
  incoming_message ← parse_inbound telegram_transport message None;
  match incoming_message with
  | Some incoming_message =>
      response ← create_response incoming_message;
      match response with
      | Some response => send telegram_transport response None
      | None => ret tt
      end
  | None => ret tt
  end.

(** Its [except Exception as e] block.  Modelled from the spec: the function
    [response_for_exception] of [web_bot] is not among the sources; it builds
    the user-visible error block for the chat id (4.5, step 5). *)
Definition respond_except (telegram_transport : T) (chat_id : pyval)
    (e : exn) : M unit :=
  let response := response_for_exception P (Some e) chat_id in
  if negb (is_none chat_id) then send telegram_transport [response] None
  else ret tt.

(** The endpoint [respond]; [kwargs] is the decoded body. *)
Definition respond (telegram_transport : T) (kwargs : gmap string pyval)
    : M string :=
  let message := default (PDict ∅) (kwargs !! "message") in
  chat ← lift (get_method message "chat" (PDict ∅));
  chat_id ← lift (get_method chat "id" PNone);
  _ ← try_except (respond_try telegram_transport message)
        (respond_except telegram_transport chat_id);
  ret "OK".
End Methods.

End TelegramBot.

(* ===================================================================== *)
(** ** What the further statements observe                                *)
(* ===================================================================== *)

Module Requests.


(** [sendMessage] of a text to a chat. *)
Definition send_message_request (self : Telegram.TelegramTransport) (n : Z)
    (t : pyval) : HttpRequest :=
  HttpGet (Telegram.api_root self ++ "/sendMessage")
    [("chat_id", PInt n); ("text", t)].

(** [getFile] of a file id. *)
Definition get_file_request (self : Telegram.TelegramTransport) (fid : pyval)
    : HttpRequest :=
  HttpGet (Telegram.api_root self ++ "/getFile") [("file_id", fid)].

(** The upload of a block's bytes to the chat the block carries. *)
Definition upload_request (P : Platform) (self : Telegram.TelegramTransport)
    (suffix key : string) (b : Block) (bytes : list Byte.byte) : HttpRequest :=
  HttpPostFile
    (Telegram.api_root self ++ "/" ++ suffix ++ "?chat_id="
       ++ py_str (py_repr P) (chat_id b)) key bytes.

(** The test of [_send] for the text path: [block.is_text() or block.text]. *)
Definition sends_as_text (b : Block) : bool := is_text b || truthy (text b).

(** The test of [_send] for the media path. *)
Definition sends_as_media (b : Block) : bool :=
  is_image b || is_audio b || is_video b.

(** The entry a user's message becomes. *)
Definition user_entry (t : pyval) : Entry :=
  {| entry_role := User; entry_text := t; entry_tags := [] |}.

(** The last emission among the events of a run. *)
Fixpoint last_emission (evs : list AgentEvent) (before : option (list Block))
    : option (list Block) :=
  match evs with
  | [] => before
  | Emission blocks :: r => last_emission r (Some blocks)
  | AgentMessage _ _ :: r => last_emission r before
  end.

End Requests.
Export Requests.

(* ===================================================================== *)
(** ** Further sample inputs                                              *)
(* ===================================================================== *)

Module MoreSamples.
Import Samples.

(** [{"chat": {"id": 7}, "message_id": 1, "text": "hi"}] *)
Definition text_message : gmap string pyval :=
  <[ "chat" := PDict {[ "id" := PInt 7 ]} ]>
    (<[ "message_id" := PInt 1 ]> {[ "text" := PStr "hi" ]}).

Definition text_update : gmap string pyval :=
  {[ "message" := PDict text_message ]}.

(** [{"chat": "group", "text": "hi"}]: the chat is no object *)
Definition chat_is_string : gmap string pyval :=
  <[ "chat" := PStr "group" ]> {[ "text" := PStr "hi" ]}.

(** [{"chat": {"id": "abc"}, "message_id": 1}] *)
Definition chat_id_is_string : gmap string pyval :=
  <[ "chat" := PDict {[ "id" := PStr "abc" ]} ]> {[ "message_id" := PInt 1 ]}.

(** [{"chat": {"id": 7}, "text": "hi"}]: no message id *)
Definition no_message_id : gmap string pyval :=
  <[ "chat" := PDict {[ "id" := PInt 7 ]} ]> {[ "text" := PStr "hi" ]}.

(** [{"chat": {"id": 7}, "message_id": "m1", "text": "hi"}] *)
Definition message_id_is_string : gmap string pyval :=
  <[ "chat" := PDict {[ "id" := PInt 7 ]} ]>
    (<[ "message_id" := PStr "m1" ]> {[ "text" := PStr "hi" ]}).

Definition no_message_id_update : gmap string pyval :=
  {[ "message" := PDict no_message_id ]}.

Definition voice_update : gmap string pyval :=
  {[ "message" := PDict voice_message ]}.

(** [{"message": "hello"}]: the message is no object *)
Definition message_is_string : gmap string pyval :=
  {[ "message" := PStr "hello" ]}.

(** A second text block, for chat 2. *)
Definition second_text_block : Block :=
  with_chat_id (PInt 2) (new_block (PStr "there") None).




(** A block with neither text nor a kind that can be sent. *)
Definition odd_block : Block := with_chat_id (PInt 1) (new_block PNone None).

(** An image for chat 1. *)
Definition image_block : Block :=
  {| text := PNone; url := None; mime_type := Image; chat_id := PInt 1;
     message_id := PNone; tags := [] |}.


(** An agent whose run emits twice. *)
Definition chatty_run : AgentRun :=
  {| events := [Emission [text_block]; Emission [hi_there]];
     result := Returns None |}.

Definition chatty_agent : Agent := fun _ _ => chatty_run.

(** An agent whose run emits and then raises. *)
Definition crashing_run : AgentRun :=
  {| events := [Emission [hi_there]]; result := Raises (OtherError "boom") |}.

Definition crashing_agent : Agent := fun _ _ => crashing_run.


(** An agent whose run emits a new block and one already addressed to
    chat 1. *)
Definition forwarding_agent : Agent :=
  fun _ _ => {| events := [Emission [hi_there; text_block]];
                result := Returns None |}.


(** A persistence layer whose chat histories cannot be resolved. *)
Definition unreachable : Persistence :=
  {| ChatHistory_get_or_create := fun _ _ _ _ => raise (OtherError "unreachable");
     ActionCache_get_or_create := action_cache_get_or_create;
     LLMCache_get_or_create := llm_cache_get_or_create |}.

(** A persistence layer whose action caches cannot be resolved. *)
Definition cacheless : Persistence :=
  {| ChatHistory_get_or_create := history_get_or_create;
     ActionCache_get_or_create := fun _ _ => raise (OtherError "unreachable");
     LLMCache_get_or_create := llm_cache_get_or_create |}.

(** A stand-in for the message of the webhook error: it keeps the url and
    the provider's text. *)
Definition webhook_refused (webhook_url resp_text : string)
    : steamship_message :=
  MessageNotSent (PStr webhook_url) resp_text.

(** A stand-in for [f"{e}"]. *)
Definition exception_name (e : exn) : string :=
  match e with
  | SteamshipError _ => "SteamshipError"
  | AttributeError _ => "AttributeError"
  | TypeError => "TypeError"
  | ValueError => "ValueError"
  | KeyError _ => "KeyError"
  | JSONDecodeError => "JSONDecodeError"
  | OtherError d => d
  end.

(** A config without token, and one with its own. *)
Definition tokenless : TelegramSetup.TelegramTransportConfig :=
  TelegramSetup.default_config.

Definition with_token : TelegramSetup.TelegramTransportConfig :=
  {| TelegramSetup.bot_token := Some "123:abc";
     TelegramSetup.api_base := Some "https://api.telegram.org/bot" |}.

(** [response.content]: here the bytes of the response's text. *)
Definition text_bytes (r : HttpResponse) : list Byte.byte :=
  list_byte_of_string (resp_text r).

(** A [create_response] that has nothing to say. *)
Definition no_response (incoming_message : Block) : M (option (list Block)) :=
  ret None.

End MoreSamples.

(* ===================================================================== *)
(** ** Running computations                                               *)
(* ===================================================================== *)

#[local] Open Scope list_scope.

(** Unfolding the monad's operations in a computation applied to a world. *)
Ltac run :=
  unfold mbind, mret, M_bind, M_ret, bind, ret, lift, raise, modify, gets,
    try_except in *;
  cbn beta iota in *.

(** Evaluating the Python builtins on values that are known. *)
Ltac py :=
  cbn [default from_option Datatypes.id get_method getitem is_none negb] in *.

Section MonadFacts.
Context {A B : Type}.

Lemma bind_returns (c : M A) (k : A -> M B) w a w' :
  c w = (Returns a, w') -> (c ≫= k) w = k a w'.
Proof. intros E. run. by rewrite E. Qed.

Lemma bind_raises (c : M A) (k : A -> M B) w e w' :
  c w = (Raises e, w') -> (c ≫= k) w = (Raises e, w').
Proof. intros E. run. by rewrite E. Qed.
End MonadFacts.

Lemma for_each_app {A} (body : A -> M unit) (pre post : list A) w w1 :
  for_each body pre w = (Returns tt, w1) ->
  for_each body (pre ++ post) w = for_each body post w1.
Proof.
  revert w. induction pre as [|x pre IH]; intros w E; simpl in *.
  - run. by inversion E.
  - run. destruct (body x w) as [[[]|e] w0]; [by apply IH | discriminate].
Qed.

(* ===================================================================== *)
(** ** The agent context                                                  *)
(* ===================================================================== *)

Section ContextFacts.
Context `{Persistence}.

(** Whatever the persistence layer, a context that [get_or_create] returns
    has its caches set as the flags say, and starts empty. *)
Lemma get_or_create_returned client context_keys tags searchable
    use_llm_cache use_action_cache w context w' :
  get_or_create client context_keys tags searchable use_llm_cache
    use_action_cache w = (Returns context, w') ->
  (is_Some (action_cache context) <-> use_action_cache = Some true)
  /\ (is_Some (llm_cache context) <-> use_llm_cache = Some true)
  /\ metadata context = ∅
  /\ completed_steps context = []
  /\ emit_funcs context = [].
Proof.
  unfold get_or_create. run.
  destruct (ChatHistory_get_or_create _ _ _ _ w) as [[h|e] w1]; [|discriminate].
  destruct use_action_cache as [[]|]; cbn [flag_set]; run.
  all: destruct use_llm_cache as [[]|]; cbn [flag_set]; run.
  all: repeat match goal with
         | |- context [ActionCache_get_or_create ?c ?k ?w] =>
             destruct (ActionCache_get_or_create c k w) as [[?|?] ?]
         | |- context [LLMCache_get_or_create ?c ?k ?w] =>
             destruct (LLMCache_get_or_create c k w) as [[?|?] ?]
         end.
  all: intros E; inversion E; subst; cbn.
  all: repeat split; try done; intros HS; try (by eexists); try (by destruct HS).
Qed.
End ContextFacts.

(* ===================================================================== *)
(** ** The store                                                          *)
(* ===================================================================== *)

Section StoreFacts.
Implicit Types (w : World) (f : File) (k : ContextKeys).

Lemma find_app_fresh {A} (p : A -> bool) (l : list A) x :
  find p l = None -> find p (l ++ [x]) = if p x then Some x else None.
Proof.
  induction l as [|y l IH]; simpl; [done|].
  destruct (p y); [discriminate | exact IH].
Qed.

Lemma find_app_found {A} (p : A -> bool) (l l' : list A) x :
  find p l = Some x -> find p (l ++ l') = Some x.
Proof.
  induction l as [|y l IH]; simpl; [discriminate|].
  destruct (p y); [done | exact IH].
Qed.

Lemma find_map_stable {A} (p : A -> bool) (g : A -> A) (l : list A) :
  (forall x, p (g x) = p x) -> find p (map g l) = g <$> find p l.
Proof.
  intros Hp. induction l as [|y l IH]; simpl; [done|].
  rewrite Hp. destruct (p y); [done | exact IH].
Qed.

Lemma get_existing_file_files k w1 w2 :
  files w1 = files w2 -> get_existing_file k w1 = get_existing_file k w2.
Proof. unfold get_existing_file. by intros ->. Qed.

Lemma get_existing_file_keys k w f :
  get_existing_file k w = Some f -> file_keys f = k.
Proof.
  unfold get_existing_file. intros E.
  apply find_some in E as [_ E]. by apply bool_decide_eq_true in E.
Qed.

(** A log that exists is the one resolved, and nothing is written. *)
Lemma history_get_or_create_found client k tags searchable w f :
  get_existing_file k w = Some f ->
  history_get_or_create client k tags searchable w
  = (Returns {| file := f |}, w).
Proof. unfold history_get_or_create. by intros ->. Qed.

(** Resolution always returns; the log it returns is the one the keys
    resolve to afterwards; it adds at most one log, which is empty. *)
Lemma history_get_or_create_resolves client k tags searchable w :
  exists h new,
    history_get_or_create client k tags searchable w
    = (Returns h, with_files (files w ++ new) w)
    /\ get_existing_file k (with_files (files w ++ new) w) = Some (file h)
    /\ Forall (fun f => file_keys f = k /\ file_blocks f = []) new
    /\ (new = [] <-> is_Some (get_existing_file k w)).
Proof.
  unfold history_get_or_create.
  destruct (get_existing_file k w) as [f|] eqn:E.
  - exists {| file := f |}, []. rewrite app_nil_r.
    replace (with_files (files w) w) with w by by destruct w.
    repeat split; eauto.
  - eexists {| file := _ |}, [_]. split; [reflexivity|].
    split; [|split].
    + unfold get_existing_file in *. cbn.
      rewrite (find_app_fresh _ _ _ E). cbn.
      by rewrite bool_decide_eq_true_2.
    + by repeat constructor.
    + split; [discriminate | by intros []].
Qed.

(** Entries of every conversation after appending logs that are empty. *)
Lemma history_entries_new_logs k w new :
  Forall (fun f => file_blocks f = []) new ->
  history_entries k (with_files (files w ++ new) w) = history_entries k w.
Proof.
  intros Hnew. unfold history_entries, get_existing_file. cbn.
  destruct (find _ (files w)) as [f|] eqn:E.
  - by rewrite (find_app_found _ _ new _ E).
  - induction (files w) as [|g l IH]; simpl in *.
    + destruct (find _ new) as [g|] eqn:Eg; [|done].
      apply find_some in Eg as [Hin _].
      by apply (proj1 (List.Forall_forall _ _) Hnew).
    + destruct (bool_decide _); [discriminate | by apply IH].
Qed.

Lemma cache_get_or_create_spec name k w :
  exists w', cache_get_or_create name k w = (Returns tt, w')
    /\ same_but_caches w w'
    /\ forall name' k', cache_contents name' k' w' = cache_contents name' k' w.
Proof.
  unfold cache_get_or_create. run.
  destruct (caches w !! (name, k)) as [c|] eqn:E.
  - exists w. by repeat split.
  - eexists. split; [reflexivity|]. split; [by repeat split|].
    intros name' k'. unfold cache_contents. cbn.
    destruct (decide ((name, k) = (name', k'))) as [<-|Hne].
    + by rewrite lookup_insert_eq, E.
    + by rewrite lookup_insert_ne.
Qed.

Lemma same_but_caches_trans w1 w2 w3 :
  same_but_caches w1 w2 -> same_but_caches w2 w3 -> same_but_caches w1 w3.
Proof. unfold same_but_caches. intros. intuition congruence. Qed.

Lemma same_but_caches_refl w : same_but_caches w w.
Proof. by repeat split. Qed.

(** [get_or_create] over the store: it returns, its history is the one
    [ChatHistory.get_or_create] resolves, and on top of that resolution only
    cache stores are touched, and their contents not at all. *)
Lemma get_or_create_store client k tags searchable use_llm use_action w :
  exists context w' h w1,
    history_get_or_create client k tags searchable w = (Returns h, w1)
    /\ get_or_create client k tags searchable use_llm use_action w
       = (Returns context, w')
    /\ chat_history context = h
    /\ same_but_caches w1 w'
    /\ forall name' k', cache_contents name' k' w' = cache_contents name' k' w1.
Proof.
  destruct (history_get_or_create_resolves client k tags searchable w)
    as (h & new & Eh & _).
  set (w1 := with_files (files w ++ new) w) in *.
  assert (exists oa w2,
    (if flag_set use_action
     then c ← ActionCache_get_or_create client k; ret (Some c)
     else ret None) w1 = (Returns oa, w2)
    /\ same_but_caches w1 w2
    /\ forall n' k', cache_contents n' k' w2 = cache_contents n' k' w1)
    as (oa & w2 & Ea & S12 & C12).
  { destruct (flag_set use_action).
    - destruct (cache_get_or_create_spec action_cache_name k w1)
        as (w2 & E & S & C).
      exists (Some {| action_cache_keys := k |}), w2. split; [|done].
      cbn. unfold action_cache_get_or_create. run. by rewrite E.
    - exists None, w1. split; [done|]. split; [apply same_but_caches_refl|done]. }
  assert (exists ol w3,
    (if flag_set use_llm
     then c ← LLMCache_get_or_create client k; ret (Some c)
     else ret None) w2 = (Returns ol, w3)
    /\ same_but_caches w2 w3
    /\ forall n' k', cache_contents n' k' w3 = cache_contents n' k' w2)
    as (ol & w3 & El & S23 & C23).
  { destruct (flag_set use_llm).
    - destruct (cache_get_or_create_spec llm_cache_name k w2)
        as (w3 & E & S & C).
      exists (Some {| llm_cache_keys := k |}), w3. split; [|done].
      cbn. unfold llm_cache_get_or_create. run. by rewrite E.
    - exists None, w2. split; [done|]. split; [apply same_but_caches_refl|done]. }
  eexists _, w3, h, w1. split; [exact Eh|]. split.
  - unfold get_or_create.
    rewrite (bind_returns _ _ _ _ _ Eh).
    rewrite (bind_returns _ _ _ _ _ Ea).
    rewrite (bind_returns _ _ _ _ _ El). reflexivity.
  - split; [done|]. split; [by eapply same_but_caches_trans|].
    intros. by rewrite C23, C12.
Qed.
End StoreFacts.

Section ContextClaims.
Implicit Types (w : World) (k : ContextKeys).

Lemma cache_lookup_contents name k fingerprint w :
  cache_lookup name k fingerprint w = cache_contents name k w !! fingerprint.
Proof.
  unfold cache_lookup, cache_contents.
  by destruct (caches w !! (name, k)).
Qed.

Lemma history_entries_files k w1 w2 :
  files w1 = files w2 -> history_entries k w1 = history_entries k w2.
Proof.
  intros E. unfold history_entries. by rewrite (get_existing_file_files k _ _ E).
Qed.

(** Over any persistence layer: whenever the three resolution calls return,
    [get_or_create] returns a context around the resolved chat history whose
    action cache is set exactly when [use_action_cache] is true, whose llm
    cache is set exactly when [use_llm_cache] is true, and whose metadata,
    completed steps and emit funcs are empty. *)
Lemma get_or_create_assembles `{Persistence} client k tags searchable
    use_llm use_action w h w1 :
  ChatHistory_get_or_create client k tags searchable w = (Returns h, w1) ->
  (forall w0, exists c w0', ActionCache_get_or_create client k w0 = (Returns c, w0')) ->
  (forall w0, exists c w0', LLMCache_get_or_create client k w0 = (Returns c, w0')) ->
  exists context w',
    get_or_create client k tags searchable use_llm use_action w
    = (Returns context, w')
    /\ chat_history context = h
    /\ (is_Some (action_cache context) <-> use_action = Some true)
    /\ (is_Some (llm_cache context) <-> use_llm = Some true)
    /\ metadata context = ∅
    /\ completed_steps context = []
    /\ emit_funcs context = [].
Proof.
  intros Eh Ha Hl.
  assert (exists context w',
    get_or_create client k tags searchable use_llm use_action w
    = (Returns context, w') /\ chat_history context = h)
    as (context & w' & E & Ehist).
  { unfold get_or_create. rewrite (bind_returns _ _ _ _ _ Eh).
    destruct (flag_set use_action).
    - destruct (Ha w1) as (ca & w2 & Ea).
      rewrite (bind_returns _ (fun _ => _ ≫= _) w1 (Some ca) w2);
        [|by rewrite (bind_returns _ _ _ _ _ Ea)].
      destruct (flag_set use_llm).
      + destruct (Hl w2) as (cl & w3 & El).
        rewrite (bind_returns _ _ w2 (Some cl) w3);
          [|by rewrite (bind_returns _ _ _ _ _ El)].
        by eexists _, _.
      + by eexists _, _.
    - destruct (flag_set use_llm).
      + destruct (Hl w1) as (cl & w3 & El).
        run. rewrite El. by eexists _, _.
      + by eexists _, _. }
  exists context, w'. split; [exact E|]. split; [exact Ehist|].
  exact (get_or_create_returned _ _ _ _ _ _ _ _ _ E).
Qed.

(** C3.  For every client, context keys and flags, [get_or_create] returns
    a context whose action cache is set exactly when [use_action_cache] is
    true, whose llm cache is set exactly when [use_llm_cache] is true, and
    whose metadata, completed steps and emit funcs are empty. *)
Theorem get_or_create_caches_follow_flags client k tags searchable use_llm
    use_action w :
  exists context w',
    get_or_create client k tags searchable use_llm use_action w
    = (Returns context, w')
    /\ (is_Some (action_cache context) <-> use_action = Some true)
    /\ (is_Some (llm_cache context) <-> use_llm = Some true)
    /\ metadata context = ∅
    /\ completed_steps context = []
    /\ emit_funcs context = [].
Proof.
  destruct (get_or_create_store client k tags searchable use_llm use_action w)
    as (context & w' & _ & _ & _ & E & _).
  exists context, w'. split; [exact E|].
  exact (get_or_create_returned _ _ _ _ _ _ _ _ _ E).
Qed.

(** C4.  Over the store, two calls of [get_or_create] with the same client
    and context keys (whatever the other arguments) return contexts with the
    same id, around the same chat-history log, and the second call leaves
    the list of logs as the first one left it. *)
Theorem get_or_create_twice_same_log client k tags1 searchable1 use_llm1
    use_action1 tags2 searchable2 use_llm2 use_action2 w :
  exists context1 w1 context2 w2,
    get_or_create client k tags1 searchable1 use_llm1 use_action1 w
    = (Returns context1, w1)
    /\ get_or_create client k tags2 searchable2 use_llm2 use_action2 w1
       = (Returns context2, w2)
    /\ id context1 = id context2
    /\ chat_history context1 = chat_history context2
    /\ files w2 = files w1.
Proof.
  destruct (get_or_create_store client k tags1 searchable1 use_llm1 use_action1 w)
    as (c1 & w1 & h & wh & Eh & E1 & Hist1 & S1 & _).
  destruct (history_get_or_create_resolves client k tags1 searchable1 w)
    as (h0 & new & Eh0 & Found & _).
  rewrite Eh in Eh0. inversion Eh0; subst h0. clear Eh0.
  match goal with Hw : wh = _ |- _ => rewrite <- Hw in Found end.
  assert (get_existing_file k w1 = Some (file h)) as Found1.
  { rewrite <- Found. symmetry. apply get_existing_file_files, S1. }
  destruct (get_or_create_store client k tags2 searchable2 use_llm2 use_action2 w1)
    as (c2 & w2 & h2 & wh2 & Eh2 & E2 & Hist2 & S2 & _).
  rewrite (history_get_or_create_found _ _ _ _ _ _ Found1) in Eh2.
  injection Eh2 as Eh2 Ewh2.
  exists c1, w1, c2, w2. split; [exact E1|]. split; [exact E2|].
  assert (chat_history c1 = chat_history c2) as Ec.
  { rewrite Hist1, Hist2, <- Eh2. by destruct h. }
  split; [unfold id; by rewrite Ec|]. split; [exact Ec|].
  rewrite <- Ewh2 in S2. symmetry. apply S2.
Qed.

(** C5.  Over the store, [get_or_create] returns and leaves the entries of
    every conversation's chat history and the contents of every cache store
    as they were: the logs that existed are kept as they are, a log it
    creates is empty, and every cache lookup answers as before. *)
Theorem get_or_create_writes_nothing client k tags searchable use_llm
    use_action w :
  exists context w',
    get_or_create client k tags searchable use_llm use_action w
    = (Returns context, w')
    /\ (forall k', history_entries k' w' = history_entries k' w)
    /\ (exists new : list File,
          files w' = files w ++ new
          /\ Forall (fun f => file_blocks f = []) new)
    /\ (forall name k', cache_contents name k' w' = cache_contents name k' w)
    /\ (forall name k' fingerprint,
          cache_lookup name k' fingerprint w'
          = cache_lookup name k' fingerprint w).
Proof.
  destruct (get_or_create_store client k tags searchable use_llm use_action w)
    as (c & w' & h & wh & Eh & E & _ & S & C).
  destruct (history_get_or_create_resolves client k tags searchable w)
    as (h0 & new & Eh0 & _ & Hnew & _).
  rewrite Eh in Eh0. inversion Eh0; subst h0.
  match goal with Hw : wh = _ |- _ => rename Hw into Ewh end.
  assert (Forall (fun f => file_blocks f = []) new) as Hempty.
  { eapply Forall_impl; [exact Hnew|]. by intros f [_ ?]. }
  assert (files w' = files w ++ new) as Ef.
  { destruct S as [<- _]. by rewrite Ewh. }
  assert (forall name k', cache_contents name k' w' = cache_contents name k' w)
    as Hc.
  { intros. rewrite C, Ewh. reflexivity. }
  exists c, w'. split; [exact E|]. split; [|split; [|split]].
  - intros k'. rewrite <- (history_entries_new_logs k' w new Hempty).
    apply history_entries_files. by rewrite Ef.
  - by exists new.
  - exact Hc.
  - intros. by rewrite !cache_lookup_contents, Hc.
Qed.
End ContextClaims.

(* ===================================================================== *)
(** ** The Telegram transport                                             *)
(* ===================================================================== *)

Section TelegramFacts.
Variable P : Platform.
Implicit Types (self : Telegram.TelegramTransport) (w : World).

Lemma isinstance_int_not_none v : isinstance_int v = true -> is_none v = false.
Proof. by destruct v. Qed.

(** A payload with a valid chat id and message id and nothing to say. *)
Lemma parse_inbound_nothing self (m c : gmap string pyval) cid mid context w :
  m !! "chat" = Some (PDict c) ->
  c !! "id" = Some cid -> isinstance_int cid = true ->
  m !! "message_id" = Some mid -> isinstance_int mid = true ->
  default PNone (m !! "text") = PNone ->
  truthy (default PNone (m !! "voice")) = false ->
  truthy (default PNone (m !! "video_note")) = false ->
  Telegram._parse_inbound P self (PDict m) context w = (Returns None, w).
Proof.
  intros Hchat Hid Hcid Hmid Hmidint Htext Hvoice Hvideo.
  pose proof (isinstance_int_not_none _ Hcid) as Hcid'.
  pose proof (isinstance_int_not_none _ Hmidint) as Hmid'.
  unfold Telegram._parse_inbound. run. py.
  rewrite Hchat. py. rewrite Hid. py.
  rewrite Hcid', Hcid. py. rewrite Hmid. py.
  rewrite Hmid', Hmidint. py.
  rewrite Hvoice, Hvideo, Htext. reflexivity.
Qed.

(** C7.  A well-formed payload (integer chat id and message id) with no
    text and no voice or video-note attachment parses to no message, and
    [telegram_respond] acknowledges it with the world untouched: no entry
    appended, no agent run, nothing sent. *)
Theorem telegram_respond_no_op self (kwargs m c : gmap string pyval) cid mid w :
  kwargs !! "message" = Some (PDict m) ->
  m !! "chat" = Some (PDict c) ->
  c !! "id" = Some cid -> isinstance_int cid = true ->
  m !! "message_id" = Some mid -> isinstance_int mid = true ->
  default PNone (m !! "text") = PNone ->
  truthy (default PNone (m !! "voice")) = false ->
  truthy (default PNone (m !! "video_note")) = false ->
  parse_inbound (H := Telegram.telegram_transport P) self (PDict m) None w
  = (Returns None, w)
  /\ Telegram.telegram_respond P self kwargs w = (Returns "OK"%string, w).
Proof.
  intros Hmsg Hchat Hid Hcid Hmid Hmidint Htext Hvoice Hvideo.
  assert (parse_inbound (H := Telegram.telegram_transport P) self (PDict m) None w
          = (Returns None, w)) as Hparse.
  { unfold parse_inbound. cbn [_parse_inbound Telegram.telegram_transport].
    by eapply parse_inbound_nothing. }
  split; [exact Hparse|].
  unfold Telegram.telegram_respond, Telegram.respond_try. rewrite Hmsg. py.
  run. py. rewrite Hchat. py.
  rewrite Hid. py. rewrite Hparse. reflexivity.
Qed.

(** *** Parsing *)

Lemma dict_with_key_truthy (d : gmap string pyval) key v :
  d !! key = Some v -> truthy (PDict d) = true.
Proof.
  intros E. cbn [truthy]. destruct (size d) eqn:Es; [|done].
  apply map_size_empty_iff in Es. subst d. by rewrite lookup_empty in E.
Qed.

Lemma get_file_url_resolves self fid (j r : gmap string pyval) path w :
  let req := HttpGet (Telegram.api_root self ++ "/getFile")%string
               [("file_id"%string, fid)] in
  resp_json (provider P (http_log w) req) = Some (PDict j) ->
  j !! "result" = Some (PDict r) ->
  r !! "file_path" = Some path ->
  Telegram._get_file_url P self fid w
  = (Returns ("https://api.telegram.org/file/bot" ++ Telegram.bot_token self
                ++ "/" ++ py_str (py_repr P) path)%string,
     with_http_log (http_log w ++ [req]) w).
Proof.
  intros req Hj Hr Hp.
  unfold Telegram._get_file_url, Telegram._get_file, request, json. run.
  fold req. rewrite Hj. py. rewrite Hr. py. rewrite Hp. reflexivity.
Qed.

Lemma parse_inbound_missing_chat_id self (m : gmap string pyval) context w :
  missing_chat_id m ->
  exists msg,
    Telegram._parse_inbound P self (PDict m) context w
    = (Raises (SteamshipError msg), w)
    /\ (msg = NoChatFound (PDict m) \/ msg = NoChatIdFound (PDict m)).
Proof.
  intros [Hchat | (c & Hchat & Hid)]; unfold Telegram._parse_inbound; run; py.
  - rewrite Hchat. py. eauto.
  - rewrite Hchat. py. rewrite Hid. py. eauto.
Qed.

Lemma parse_inbound_attachment self (m c v j r : gmap string pyval)
    cid mid fid path context w :
  let req := HttpGet (Telegram.api_root self ++ "/getFile")%string
               [("file_id"%string, fid)] in
  m !! "chat" = Some (PDict c) ->
  c !! "id" = Some cid -> isinstance_int cid = true ->
  m !! "message_id" = Some mid -> isinstance_int mid = true ->
  attachment m = PDict v -> v !! "file_id" = Some fid ->
  resp_json (provider P (http_log w) req) = Some (PDict j) ->
  j !! "result" = Some (PDict r) ->
  r !! "file_path" = Some path ->
  Telegram._parse_inbound P self (PDict m) context w
  = (Returns (Some
       {| text := default PNone (m !! "text");
          url := Some ("https://api.telegram.org/file/bot"
                         ++ Telegram.bot_token self ++ "/"
                         ++ py_str (py_repr P) path)%string;
          mime_type := Other;
          chat_id := PStr (py_str (py_repr P) cid);
          message_id := PStr (py_str (py_repr P) mid);
          tags := [] |}),
     with_http_log (http_log w ++ [req]) w).
Proof.
  intros req Hchat Hid Hcid Hmid Hmidint Hatt Hfid Hj Hr Hp.
  pose proof (isinstance_int_not_none _ Hcid) as Hcid'.
  pose proof (isinstance_int_not_none _ Hmidint) as Hmid'.
  pose proof (dict_with_key_truthy _ _ _ Hfid) as Htruthy.
  unfold Telegram._parse_inbound. run. py.
  rewrite Hchat. py. rewrite Hid. py.
  rewrite Hcid', Hcid. py. rewrite Hmid. py.
  rewrite Hmid', Hmidint. py.
  unfold attachment, py_or in Hatt.
  destruct (truthy (default PNone (m !! "voice"))); rewrite Hatt, Htruthy; py;
    rewrite Hfid; py;
    rewrite (get_file_url_resolves self fid j r path w Hj Hr Hp);
    reflexivity.
Qed.

(** C2, as amended.  A payload whose chat is absent or [null], or is a JSON
    object whose id is absent or [null], raises a [SteamshipError]; a chat
    that is present and no JSON object is left out, [_parse_inbound] has no
    check for it.  A payload with an integer chat id and an
    integer message id that carries a voice object (or, when it carries no
    voice, a video note) with a file id, and whose [getFile] lookup answers
    with a file path, parses to a block whose text is the payload's text
    field ([None] when absent) and whose url is the file url built from that
    path. *)
Theorem parse_inbound_chat_id_and_attachment self (m : gmap string pyval)
    context w :
  (missing_chat_id m ->
   exists msg,
     Telegram._parse_inbound P self (PDict m) context w
     = (Raises (SteamshipError msg), w))
  /\ (forall (c v j r : gmap string pyval) cid mid fid path,
        m !! "chat" = Some (PDict c) ->
        c !! "id" = Some cid -> isinstance_int cid = true ->
        m !! "message_id" = Some mid -> isinstance_int mid = true ->
        (m !! "voice" = Some (PDict v)
         \/ truthy (default PNone (m !! "voice")) = false
            /\ m !! "video_note" = Some (PDict v)) ->
        v !! "file_id" = Some fid ->
        resp_json (provider P (http_log w)
                     (HttpGet (Telegram.api_root self ++ "/getFile")%string
                        [("file_id"%string, fid)])) = Some (PDict j) ->
        j !! "result" = Some (PDict r) ->
        r !! "file_path" = Some path ->
        exists block w',
          Telegram._parse_inbound P self (PDict m) context w
          = (Returns (Some block), w')
          /\ text block = default PNone (m !! "text")
          /\ url block
             = Some ("https://api.telegram.org/file/bot"
                       ++ Telegram.bot_token self ++ "/"
                       ++ py_str (py_repr P) path)%string).
Proof.
  split.
  - intros Hm.
    destruct (parse_inbound_missing_chat_id self m context w Hm) as (msg & E & _).
    by exists msg.
  - intros c v j r cid mid fid path Hchat Hid Hcid Hmid Hmidint Hv Hfid Hj Hr Hp.
    assert (attachment m = PDict v) as Hatt.
    { unfold attachment, py_or.
      destruct Hv as [Hv | [Hfalsy Hv]].
      - rewrite Hv. py. by rewrite (dict_with_key_truthy _ _ _ Hfid).
      - rewrite Hfalsy, Hv. reflexivity. }
    eexists _, _. split.
    + by eapply parse_inbound_attachment.
    + by split.
Qed.
End TelegramFacts.

Section TelegramSending.
Variable P : Platform.
Implicit Types (self : Telegram.TelegramTransport) (w : World).

(** *** Sending *)

(** Each block is delivered, if at all, by one call addressed to the chat
    id the block carries. *)
Lemma send_block_addressed self c block w :
  chat_id block = c ->
  exists sent,
    http_log (snd (Telegram.send_block P self block w)) = http_log w ++ sent
    /\ Forall (addressed_to P self c) sent.
Proof.
  intros <-. unfold Telegram.send_block.
  destruct (is_text block || truthy (text block)).
  - run. destruct (py_int (chat_id block)) as [n|e] eqn:En.
    + unfold request. cbn. eexists [_]. split; [reflexivity|].
      constructor; [|constructor]. cbn. split; [reflexivity|].
      by exists n, (text block).
    + exists []. cbn. by rewrite app_nil_r.
  - destruct (is_image block || is_audio block || is_video block).
    + set (names := if is_image block then _ else _).
      destruct names as [suffix key]. run.
      destruct (block_raw P block) as [bytes|e].
      * unfold request, logging_error. run.
        assert (addressed_to P self (chat_id block)
                  (HttpPostFile
                     (Telegram.api_root self ++ "/" ++ suffix ++ "?chat_id="
                        ++ py_str (py_repr P) (chat_id block))%string key bytes))
          as Haddr by (by exists suffix).
        destruct (negb _); cbn; (eexists [_]; split; [reflexivity|]);
          by repeat constructor.
      * exists []. cbn. by rewrite app_nil_r.
    + unfold logging_error. run. exists []. cbn. by rewrite app_nil_r.
Qed.

Lemma send_addressed self c blocks metadata w :
  Forall (fun b => chat_id b = c) blocks ->
  exists sent,
    http_log (snd (Telegram._send P self blocks metadata w)) = http_log w ++ sent
    /\ Forall (addressed_to P self c) sent.
Proof.
  unfold Telegram._send. intros Hall. revert w.
  induction Hall as [|b blocks Hb Hall IH]; intros w.
  - exists []. cbn. by rewrite app_nil_r.
  - cbn [for_each]. run.
    destruct (send_block_addressed self c b w Hb) as (sent1 & E1 & A1).
    destruct (Telegram.send_block P self b w) as [[[]|e] w1]; cbn [snd] in *.
    + destruct (IH w1) as (sent2 & E2 & A2).
      exists (sent1 ++ sent2). rewrite E2, E1, app_assoc.
      split; [done | by apply Forall_app].
    + by exists sent1.
Qed.

(** What [_send] does for a media block the provider refuses: the refusal is
    logged and a [SteamshipError] raised. *)
Lemma send_block_media_refused self block bytes w :
  let req :=
    HttpPostFile
      (Telegram.api_root self ++ "/"
         ++ (if is_image block then "sendPhoto"
             else if is_audio block then "sendAudio" else "sendVideo")
         ++ "?chat_id=" ++ py_str (py_repr P) (chat_id block))%string
      (if is_image block then "photo"
       else if is_audio block then "audio" else "video")%string bytes in
  is_text block || truthy (text block) = false ->
  is_image block || is_audio block || is_video block = true ->
  block_raw P block = Returns bytes ->
  status_code (provider P (http_log w) req) <> 200 ->
  Telegram.send_block P self block w
  = (Raises (SteamshipError
               (MessageNotSent (chat_id block)
                  (resp_text (provider P (http_log w) req)))),
     with_error_log
       (error_log w
          ++ [ErrorSendingMessage (resp_text (provider P (http_log w) req))
                (status_code (provider P (http_log w) req))])
       (with_http_log (http_log w ++ [req]) w)).
Proof.
  intros req Htext Hmedia Hraw Hstatus. unfold Telegram.send_block.
  rewrite Htext, Hmedia.
  assert (negb (status_code (provider P (http_log w) req) =? 200) = true) as Hs.
  { apply negb_true_iff, Z.eqb_neq, Hstatus. }
  subst req.
  destruct (is_image block); [|destruct (is_audio block)];
    run; rewrite Hraw; unfold request, logging_error; run;
    rewrite Hs; reflexivity.
Qed.

(** The blocks sent before a failing one stay sent: the loop stops at the
    failure, in the world the earlier blocks left. *)
Lemma send_stops_at_failure self pre block post metadata w w1 e w2 :
  Telegram._send P self pre metadata w = (Returns tt, w1) ->
  Telegram.send_block P self block w1 = (Raises e, w2) ->
  Telegram._send P self (pre ++ block :: post) metadata w = (Raises e, w2).
Proof.
  unfold Telegram._send. intros Epre Eblock.
  rewrite (for_each_app _ _ _ _ _ Epre). cbn [for_each]. run.
  by rewrite Eblock.
Qed.

(** C6.  A text block is sent with [sendMessage] and the provider's answer
    is not looked at: when the provider refuses the call, [_send] returns
    normally, raises nothing and logs nothing. *)
Theorem send_text_block_ignores_status self w :
  let req := HttpGet (Telegram.api_root self ++ "/sendMessage")%string
               [("chat_id"%string, PInt 1); ("text"%string, PStr "hi")] in
  status_code (provider Samples.refusing (http_log w) req) = 400
  /\ Telegram._send Samples.refusing self [Samples.text_block] ∅ w
     = (Returns tt, with_http_log (http_log w ++ [req]) w)
  /\ error_log (with_http_log (http_log w ++ [req]) w) = error_log w.
Proof. by repeat split. Qed.
End TelegramSending.

Section TelegramRespond.
Variable P : Platform.
Implicit Types (self : Telegram.TelegramTransport) (w : World).

(** *** The webhook endpoint *)

(** The error block goes out as one [sendMessage] when its chat id is an
    integer. *)
Lemma respond_except_int self cid n e w :
  isinstance_int cid = true -> py_int cid = Returns n ->
  truthy (PStr (error_text P (Some e))) = true ->
  Telegram.respond_except P self cid e w
  = (Returns tt,
     with_http_log
       (http_log w
          ++ [HttpGet (Telegram.api_root self ++ "/sendMessage")%string
                [("chat_id"%string, PInt n);
                 ("text"%string, PStr (error_text P (Some e)))]]) w).
Proof.
  intros Hint Hn Htext. unfold Telegram.respond_except.
  rewrite (isinstance_int_not_none _ Hint). py.
  unfold send, response_for_exception.
  cbn [_send Telegram.telegram_transport Telegram._send for_each].
  unfold Telegram.send_block.
  cbn [chat_id text with_chat_id new_block]. rewrite Htext, orb_true_r.
  run. rewrite Hn. unfold request. reflexivity.
Qed.

Lemma respond_except_returns self cid e w :
  cid = PNone \/ isinstance_int cid = true ->
  exists w', Telegram.respond_except P self cid e w = (Returns tt, w').
Proof.
  intros [-> | Hint]; [by eexists|].
  unfold Telegram.respond_except.
  rewrite (isinstance_int_not_none _ Hint). py.
  unfold send, response_for_exception.
  cbn [_send Telegram.telegram_transport Telegram._send for_each].
  unfold Telegram.send_block.
  cbn [chat_id text with_chat_id new_block is_text is_image is_audio is_video
       mime_type orb].
  destruct (truthy _).
  - run. destruct cid; try discriminate; cbn [py_int];
      unfold request; by eexists.
  - unfold logging_error. run. by eexists.
Qed.

(** When the update has the shape the endpoint reads before its [try] (the
    message a dict, its chat a dict or absent) and the chat id is an integer
    or missing, the acknowledgement is returned whatever the [try] block
    does. *)
Lemma telegram_respond_acknowledges self (kwargs : gmap string pyval) chat cid w :
  get_method (default (PDict ∅) (kwargs !! "message")) "chat" (PDict ∅)
  = Returns chat ->
  get_method chat "id" PNone = Returns cid ->
  cid = PNone \/ isinstance_int cid = true ->
  exists w', Telegram.telegram_respond P self kwargs w = (Returns "OK"%string, w').
Proof.
  intros Hchat Hid Hcid. unfold Telegram.telegram_respond. run.
  rewrite Hchat, Hid.
  destruct (Telegram.respond_try P self _ cid w) as [[[]|e] w1].
  - by eexists.
  - destruct (respond_except_returns self cid e w1 Hcid) as (w' & ->).
    by eexists.
Qed.

(** In that case an exception of the [try] block is answered by one error
    block sent to the chat, after what the block had done ([w1]); without a
    chat id nothing is sent. *)
Lemma telegram_respond_error_block self (kwargs : gmap string pyval) chat cid
    e w w1 :
  get_method (default (PDict ∅) (kwargs !! "message")) "chat" (PDict ∅)
  = Returns chat ->
  get_method chat "id" PNone = Returns cid ->
  Telegram.respond_try P self (default (PDict ∅) (kwargs !! "message")) cid w
  = (Raises e, w1) ->
  (cid = PNone ->
   Telegram.telegram_respond P self kwargs w = (Returns "OK"%string, w1))
  /\ (forall n,
        isinstance_int cid = true -> py_int cid = Returns n ->
        truthy (PStr (error_text P (Some e))) = true ->
        Telegram.telegram_respond P self kwargs w
        = (Returns "OK"%string,
           with_http_log
             (http_log w1
                ++ [HttpGet (Telegram.api_root self ++ "/sendMessage")%string
                      [("chat_id"%string, PInt n);
                       ("text"%string, PStr (error_text P (Some e)))]]) w1)).
Proof.
  intros Hchat Hid Htry. split.
  - intros ->. unfold Telegram.telegram_respond. run.
    rewrite Hchat, Hid, Htry. reflexivity.
  - intros n Hint Hn Htext. unfold Telegram.telegram_respond. run.
    rewrite Hchat, Hid, Htry.
    by rewrite (respond_except_int self cid n e w1 Hint Hn Htext).
Qed.

(** C1.  Two updates on which an exception leaves [telegram_respond]
    instead of the acknowledgement: a message whose chat is [null] (the
    chat id is read before the [try]), and a message whose chat id is the
    string ["abc"] (the parse error is caught, and sending the error block
    to that chat id raises inside the handler). *)
Theorem telegram_respond_exception_escapes self w :
  Telegram.telegram_respond P self Samples.null_chat_update w
  = (Raises (AttributeError "get"), w)
  /\ Telegram.telegram_respond Samples.platform self
       Samples.bad_chat_id_update w
     = (Raises ValueError, w).
Proof. split; reflexivity. Qed.
End TelegramRespond.

(* ===================================================================== *)
(** ** The widget transport                                               *)
(* ===================================================================== *)

Section WidgetFacts.
Variable P : Platform.
Implicit Types (self : Widget.SteamshipWidgetTransport) (w : World)
  (k : ContextKeys).

Lemma history_get_or_create_entries client k tags searchable w h w1 :
  history_get_or_create client k tags searchable w = (Returns h, w1) ->
  file_blocks (file h) = history_entries k w
  /\ get_existing_file k w1 = Some (file h)
  /\ message_output w1 = message_output w.
Proof.
  unfold history_get_or_create, history_entries.
  destruct (get_existing_file k w) as [f|] eqn:E; intros [= <- <-]; cbn.
  - by rewrite E.
  - repeat split. unfold get_existing_file in *. cbn.
    rewrite (find_app_fresh _ _ _ E). cbn. by rewrite bool_decide_eq_true_2.
Qed.

(** Appending to the log the keys resolve to adds the entry at its end. *)
Lemma append_message_entries role h text tags k w :
  get_existing_file k w = Some (file h) ->
  exists w',
    append_message role h text tags w = (Returns tt, w')
    /\ history_entries k w'
       = file_blocks (file h)
           ++ [{| entry_role := role; entry_text := text; entry_tags := tags |}]
    /\ message_output w' = message_output w.
Proof.
  intros Hfound. eexists. split; [reflexivity|]. split; [|reflexivity].
  unfold history_entries, get_existing_file in *. cbn.
  rewrite find_map_stable.
  - rewrite Hfound. cbn. unfold append_entry. by rewrite String.eqb_refl.
  - intros f. unfold append_entry. by destruct (String.eqb _ _).
Qed.

(** The first half of [answer] on a payload with a question: the context is
    the one of the session, the question is the new last entry of its chat
    history, the only emit func is [save_for_emit], and the buffer is as it
    was. *)
Lemma answer_context_spec self (payload : gmap string pyval) q w :
  payload !! "question" = Some q -> is_none q = false ->
  let session :=
    PStr (py_str (py_repr P)
            (default (PStr "default") (payload !! "chat_session_id"))) in
  let k := context_keys_for (Widget.agent_service self) session in
  exists incoming context w',
    Widget.answer_context P self payload w = (Returns (incoming, context), w')
    /\ chat_id incoming = session
    /\ emit_funcs context = [Widget.save_for_emit self]
    /\ history_entries k w'
       = history_entries k w
           ++ [{| entry_role := User; entry_text := q; entry_tags := [] |}]
    /\ message_output w' = message_output w.
Proof.
  intros Hq Hnone session k.
  unfold Widget.answer_context, parse_inbound.
  cbn [_parse_inbound Widget.widget_transport]. unfold Widget._parse_inbound.
  run. py. rewrite Hq. py. rewrite Hnone.
  unfold draw_uuid, Widget.attributes_of. run.
  cbn [chat_id message_id is_none text tags set_chat_id set_message_id
       with_chat_id with_message_id new_block].
  fold session. set (w0 := with_uuids_drawn _ w).
  unfold build_default_context. fold k.
  destruct (get_or_create_store (service_client (Widget.agent_service self)) k
              None true (use_llm_cache (Widget.agent_service self))
              (use_action_cache (Widget.agent_service self)) w0)
    as (context & w2 & h & w1 & Eh & E & Hist & S & _).
  rewrite E.
  destruct (history_get_or_create_entries _ _ _ _ _ _ _ Eh)
    as (Hblocks & Hfound & Hout1).
  assert (get_existing_file k w2 = Some (file h)) as Hfound2.
  { rewrite <- Hfound. symmetry. apply get_existing_file_files, S. }
  rewrite Hist.
  destruct (append_message_entries User h q [] k w2 Hfound2)
    as (w3 & Eapp & Hentries & Hout3).
  unfold append_user_message. rewrite Eapp.
  eexists _, _, w3. split; [reflexivity|].
  split; [reflexivity|]. split; [reflexivity|]. split.
  - rewrite Hentries, Hblocks. reflexivity.
  - rewrite Hout3. destruct S as (_ & _ & _ & _ & _ & <-). exact Hout1.
Qed.

(** Events other than emissions leave the buffer alone. *)
Lemma perform_quiet context evs w :
  Forall (fun ev => is_emission ev = false) evs ->
  exists w',
    for_each (perform context) evs w = (Returns tt, w')
    /\ message_output w' = message_output w.
Proof.
  intros Hq. revert w. induction Hq as [|ev evs Hev _ IH]; intros w.
  - by exists w.
  - destruct ev as [blocks|text tags]; [discriminate|].
    cbn [for_each perform]. unfold append_agent_message, append_message. run.
    destruct (IH (with_files
                    (map (append_entry
                            {| entry_role := Assistant; entry_text := text;
                               entry_tags := tags |}
                            (file_id (file (chat_history context))))
                       (files w)) w)) as (w' & E & Hout).
    exists w'. by rewrite E.
Qed.

Lemma run_agent_quiet service agent context w r :
  Forall (fun ev => is_emission ev = false) (events (agent context w)) ->
  result (agent context w) = Returns r ->
  exists w',
    run_agent service agent context w = (Returns r, w')
    /\ message_output w' = message_output w.
Proof.
  intros Hq Hr. unfold run_agent. run.
  destruct (perform_quiet context _
              (with_agent_runs (S (agent_runs w)) w) Hq) as (w' & E & Hout).
  rewrite E, Hr. by exists w'.
Qed.

(** C8.  For the payload [{"question": "hello", "chat_session_id": "abc"}],
    with an agent whose run emits the single text block ["hi there"],
    [answer] returns exactly that block, and the chat history of
    conversation ["abc"] has gained one entry, the user's ["hello"]. *)
Theorem answer_hello self w :
  (forall context w0,
     default_agent (Widget.agent_service self) context w0
     = {| events := [Emission [Samples.hi_there]]; result := Returns None |}) ->
  let k := context_keys_for (Widget.agent_service self) (PStr "abc") in
  exists w',
    Widget.answer P self Samples.hello_question w
    = (Returns [Samples.hi_there], w')
    /\ history_entries k w'
       = history_entries k w
           ++ [{| entry_role := User; entry_text := PStr "hello";
                  entry_tags := [] |}].
Proof.
  intros Hagent k.
  destruct (answer_context_spec self Samples.hello_question (PStr "hello") w
              eq_refl eq_refl)
    as (incoming & context & w3 & E & _ & Hemit & Hentries & _).
  change (context_keys_for (Widget.agent_service self) _) with k in Hentries.
  unfold Widget.answer. rewrite (bind_returns _ _ _ _ _ E). cbn [fst snd].
  unfold Widget.answer_run, run_agent, get_default_agent. run.
  rewrite Hagent. cbn [events result for_each perform].
  unfold emit. rewrite Hemit. cbn [for_each]. unfold Widget.save_for_emit. run.
  unfold Widget.read_message_output. run. cbn [message_output with_message_output].
  eexists. split; [reflexivity|]. exact Hentries.
Qed.

(** When the agent's run raises, the handler puts the error block of the
    session into the buffer, and that is the answer. *)
Lemma answer_agent_raises self (payload : gmap string pyval) q e w :
  payload !! "question" = Some q -> is_none q = false ->
  (forall context w0,
     Forall (fun ev => is_emission ev = false)
       (events (default_agent (Widget.agent_service self) context w0))
     /\ result (default_agent (Widget.agent_service self) context w0)
        = Raises e) ->
  exists w',
    Widget.answer P self payload w
    = (Returns
         [response_for_exception P (Some e)
            (PStr (py_str (py_repr P)
                     (default (PStr "default") (payload !! "chat_session_id"))))],
       w').
Proof.
  intros Hq Hnone Hagent.
  destruct (answer_context_spec self payload q w Hq Hnone)
    as (incoming & context & w3 & E & Hchat & _).
  destruct (Hagent context w3) as (Hquiet & Hr).
  destruct (perform_quiet context _
              (with_agent_runs (S (agent_runs w3)) w3) Hquiet) as (w4 & Ep & _).
  unfold Widget.answer. rewrite (bind_returns _ _ _ _ _ E). cbn [fst snd].
  unfold Widget.answer_run, run_agent, get_default_agent. run.
  rewrite Ep, Hr, Hchat. unfold Widget.read_message_output. run.
  cbn [message_output with_message_output]. by eexists.
Qed.

(** C10.  [answer] returns the buffer [message_output], which only the emit
    func and the exception handler assign.  When the agent's run neither
    emits nor raises, [answer] returns what the buffer held before the
    request, and on a transport whose buffer was never assigned it raises
    [AttributeError]. *)
Theorem answer_returns_stale_buffer self (payload : gmap string pyval) q w :
  payload !! "question" = Some q -> is_none q = false ->
  (forall context w0,
     Forall (fun ev => is_emission ev = false)
       (events (default_agent (Widget.agent_service self) context w0))
     /\ exists r,
          result (default_agent (Widget.agent_service self) context w0)
          = Returns r) ->
  (forall previous,
     message_output w = Some previous ->
     exists w',
       Widget.answer P self payload w = (Returns previous, w')
       /\ message_output w' = Some previous)
  /\ (message_output w = None ->
      exists w',
        Widget.answer P self payload w
        = (Raises (AttributeError "message_output"), w')).
Proof.
  intros Hq Hnone Hagent.
  destruct (answer_context_spec self payload q w Hq Hnone)
    as (incoming & context & w3 & E & _ & _ & _ & Hout).
  destruct (Hagent context w3) as (Hquiet & r & Hr).
  destruct (run_agent_quiet (Widget.agent_service self)
              (get_default_agent (Widget.agent_service self)) context w3 r
              Hquiet Hr) as (w4 & Erun & Hout4).
  assert (Widget.answer P self payload w = Widget.read_message_output w4) as Eans.
  { unfold Widget.answer. rewrite (bind_returns _ _ _ _ _ E). cbn [fst snd].
    unfold Widget.answer_run. run. by rewrite Erun. }
  rewrite Eans. unfold Widget.read_message_output. run.
  rewrite Hout4, Hout. split.
  - intros previous Hprev. rewrite Hprev. exists w4. split; [reflexivity|].
    by rewrite Hout4, Hout.
  - intros ->. by exists w4.
Qed.
End WidgetFacts.

(* ===================================================================== *)
(** ** The statements at sample inputs                                    *)
(* ===================================================================== *)

Section AtSamples.
Import Samples.

Lemma get_or_create_assembles_on_store :
  exists context w',
    get_or_create {| workspace := "default" |} {[ "id" := "abc"%string ]}
      None true (Some true) None empty_world
    = (Returns context, w')
    /\ chat_history context
       = {| file := {| file_id := "0"; file_keys := {[ "id" := "abc"%string ]};
                       file_tags := []; file_blocks := [] |} |}
    /\ (is_Some (action_cache context) <-> None = Some true)
    /\ (is_Some (llm_cache context) <-> Some true = Some true)
    /\ metadata context = ∅
    /\ completed_steps context = []
    /\ emit_funcs context = [].
Proof.
  eapply (get_or_create_assembles (H := store) {| workspace := "default" |}
            {[ "id" := "abc"%string ]} None true (Some true) None empty_world).
  - reflexivity.
  - intros w0. eexists _, _. reflexivity.
  - intros w0. eexists _, _. reflexivity.
Defined.

(** Two payloads on which C2 fails as it is written: a voice message
    without message id is rejected instead of parsed, and a chat that is a
    string, which has no id either, raises [AttributeError] and no
    [SteamshipError]. *)
Lemma voice_without_message_id_rejected :
  ((exists v, voice_without_message_id !! "voice" = Some (PDict v)
              /\ v !! "file_id" = Some (PStr "F1"))
   /\ Telegram._parse_inbound platform (telegram silent_agent)
        (PDict voice_without_message_id) None empty_world
      = (Raises (SteamshipError (NoMessageIdFound (PDict voice_without_message_id))),
         empty_world)
   /\ ~ exists block w',
         Telegram._parse_inbound platform (telegram silent_agent)
           (PDict voice_without_message_id) None empty_world
         = (Returns (Some block), w'))
  /\ (MoreSamples.chat_is_string !! "chat" = Some (PStr "group")
      /\ Telegram._parse_inbound platform (telegram silent_agent)
           (PDict MoreSamples.chat_is_string) None empty_world
         = (Raises (AttributeError "get"), empty_world)
      /\ ~ exists msg w',
            Telegram._parse_inbound platform (telegram silent_agent)
              (PDict MoreSamples.chat_is_string) None empty_world
            = (Raises (SteamshipError msg), w')).
Proof.
  split.
  - split; [by eexists | split; [reflexivity|]].
    intros (block & w' & E). vm_compute in E. discriminate E.
  - split; [reflexivity | split; [reflexivity|]].
    intros (msg & w' & E). vm_compute in E. discriminate E.
Qed.

Lemma parse_inbound_chat_id_and_attachment_witness :
  (exists msg,
     Telegram._parse_inbound platform (telegram silent_agent)
       (PDict chat_without_id) None empty_world
     = (Raises (SteamshipError msg), empty_world))
  /\ (exists block w',
        Telegram._parse_inbound platform (telegram silent_agent)
          (PDict voice_message) None empty_world
        = (Returns (Some block), w')
        /\ text block = default PNone (voice_message !! "text")
        /\ url block
           = Some ("https://api.telegram.org/file/bot"
                     ++ Telegram.bot_token (telegram silent_agent) ++ "/"
                     ++ py_str (py_repr platform) (PStr "voice/file_1.oga"))%string).
Proof.
  split.
  - apply (proj1 (parse_inbound_chat_id_and_attachment platform
                    (telegram silent_agent) chat_without_id None empty_world)).
    right. exists ∅. split; reflexivity.
  - apply (proj2 (parse_inbound_chat_id_and_attachment platform
                    (telegram silent_agent) voice_message None empty_world)
             {[ "id" := PInt 7 ]} {[ "file_id" := PStr "F1" ]}
             {[ "result" := PDict {[ "file_path" := PStr "voice/file_1.oga" ]} ]}
             {[ "file_path" := PStr "voice/file_1.oga" ]}
             (PInt 7) (PInt 1) (PStr "F1") (PStr "voice/file_1.oga"));
      try reflexivity.
    left. reflexivity.
Defined.

Lemma telegram_respond_no_op_witness :
  parse_inbound (H := Telegram.telegram_transport platform)
    (telegram silent_agent) (PDict join_message) None empty_world
  = (Returns None, empty_world)
  /\ Telegram.telegram_respond platform (telegram silent_agent) join_update
       empty_world
     = (Returns "OK"%string, empty_world).
Proof.
  apply (telegram_respond_no_op platform (telegram silent_agent) join_update
           join_message {[ "id" := PInt 7 ]} (PInt 7) (PInt 1) empty_world);
    reflexivity.
Defined.

Lemma answer_hello_witness :
  exists w',
    Widget.answer platform (widget greeting_agent) hello_question empty_world
    = (Returns [hi_there], w')
    /\ history_entries (context_keys_for_id (PStr "abc")) w'
       = history_entries (context_keys_for_id (PStr "abc")) empty_world
           ++ [{| entry_role := User; entry_text := PStr "hello";
                  entry_tags := [] |}].
Proof.
  apply (answer_hello platform (widget greeting_agent) empty_world).
  intros context w0. reflexivity.
Defined.

Lemma answer_returns_stale_buffer_witness :
  (exists w',
     Widget.answer platform (widget silent_agent) hello_question
       world_with_buffer
     = (Returns [hi_there], w')
     /\ message_output w' = Some [hi_there])
  /\ (exists w',
        Widget.answer platform (widget silent_agent) hello_question empty_world
        = (Raises (AttributeError "message_output"), w')).
Proof.
  assert (forall context w0,
            Forall (fun ev => is_emission ev = false)
              (events (default_agent (Widget.agent_service (widget silent_agent))
                         context w0))
            /\ exists r,
                 result (default_agent (Widget.agent_service (widget silent_agent))
                           context w0) = Returns r) as Hquiet.
  { intros context w0. split; [constructor | by exists None]. }
  split.
  - apply (proj1 (answer_returns_stale_buffer platform (widget silent_agent)
                    hello_question (PStr "hello") world_with_buffer
                    eq_refl eq_refl Hquiet)).
    reflexivity.
  - apply (proj2 (answer_returns_stale_buffer platform (widget silent_agent)
                    hello_question (PStr "hello") empty_world
                    eq_refl eq_refl Hquiet)).
    reflexivity.
Defined.
End AtSamples.

(* ===================================================================== *)
(** ** Chat ids as strings and back                                       *)
(* ===================================================================== *)

Section IntOfStr.
















End IntOfStr.

(* ===================================================================== *)
(** ** More on parsing Telegram messages                                  *)
(* ===================================================================== *)

Section TelegramParsing.
Variable P : Platform.
Implicit Types (self : Telegram.TelegramTransport) (w : World)
  (m c : gmap string pyval).

(** [_get_file_url] makes exactly one call, whatever it gets back. *)
Lemma get_file_url_world self fid w :
  snd (Telegram._get_file_url P self fid w)
  = with_http_log (http_log w ++ [get_file_request self fid]) w.
Proof.
  unfold Telegram._get_file_url, Telegram._get_file, request, json,
    get_file_request. run.
  destruct (resp_json _) as [j|]; [|reflexivity].
  destruct (getitem j "result") as [r|e]; [|reflexivity].
  by destruct (getitem r "file_path").
Qed.

(** A text message parses without any provider call. *)
Lemma parse_inbound_text self m c cid mid t context w :
  m !! "chat" = Some (PDict c) ->
  c !! "id" = Some cid -> isinstance_int cid = true ->
  m !! "message_id" = Some mid -> isinstance_int mid = true ->
  truthy (attachment m) = false ->
  m !! "text" = Some t -> is_none t = false ->
  Telegram._parse_inbound P self (PDict m) context w
  = (Returns (Some
       {| text := t; url := None; mime_type := Other;
          chat_id := PStr (py_str (py_repr P) cid);
          message_id := PStr (py_str (py_repr P) mid);
          tags := [] |}), w).
Proof.
  intros Hchat Hid Hcid Hmid Hmidint Hatt Ht Htn.
  pose proof (isinstance_int_not_none _ Hcid) as Hcid'.
  pose proof (isinstance_int_not_none _ Hmidint) as Hmid'.
  unfold Telegram._parse_inbound. run. py.
  rewrite Hchat. py. rewrite Hid. py.
  rewrite Hcid', Hcid. py. rewrite Hmid. py.
  rewrite Hmid', Hmidint. py.
  unfold attachment, py_or in Hatt.
  destruct (truthy (default PNone (m !! "voice"))) eqn:Hv;
    [by rewrite Hatt in Hv|].
  rewrite Hatt, Ht. py. rewrite Htn. reflexivity.
Qed.

(** X1.  A text message.  A payload with an integer chat id and message id,
    no voice or video note, and a text parses, without any provider call, to
    a block with that text, no url, and the two ids as strings. *)
Theorem parse_inbound_text_message self m c cid mid t context w :
  m !! "chat" = Some (PDict c) ->
  c !! "id" = Some cid -> isinstance_int cid = true ->
  m !! "message_id" = Some mid -> isinstance_int mid = true ->
  truthy (attachment m) = false ->
  m !! "text" = Some t -> is_none t = false ->
  Telegram._parse_inbound P self (PDict m) context w
  = (Returns (Some
       {| text := t; url := None; mime_type := Other;
          chat_id := PStr (py_str (py_repr P) cid);
          message_id := PStr (py_str (py_repr P) mid);
          tags := [] |}), w).
Proof. apply parse_inbound_text. Qed.

(** X2.  The ids are checked first.  Whatever else the payload carries (a
    text, a voice), a chat that is no object raises [AttributeError], a chat
    id that is no integer, a missing message id and a message id that is no
    integer each raise their [SteamshipError], and no provider call is
    made. *)
Theorem parse_inbound_ids_checked_first self m context w :
  (forall v,
     m !! "chat" = Some v -> is_none v = false ->
     (forall d, v <> PDict d) ->
     Telegram._parse_inbound P self (PDict m) context w
     = (Raises (AttributeError "get"), w))
  /\ (forall c cid,
        m !! "chat" = Some (PDict c) -> c !! "id" = Some cid ->
        is_none cid = false -> isinstance_int cid = false ->
        Telegram._parse_inbound P self (PDict m) context w
        = (Raises (SteamshipError (BadChatId cid)), w))
  /\ (forall c cid,
        m !! "chat" = Some (PDict c) -> c !! "id" = Some cid ->
        isinstance_int cid = true ->
        default PNone (m !! "message_id") = PNone ->
        Telegram._parse_inbound P self (PDict m) context w
        = (Raises (SteamshipError (NoMessageIdFound (PDict m))), w))
  /\ (forall c cid mid,
        m !! "chat" = Some (PDict c) -> c !! "id" = Some cid ->
        isinstance_int cid = true ->
        m !! "message_id" = Some mid ->
        is_none mid = false -> isinstance_int mid = false ->
        Telegram._parse_inbound P self (PDict m) context w
        = (Raises (SteamshipError (BadMessageId mid)), w)).
Proof.
  repeat split.
  - intros v Hchat Hnone Hnd. unfold Telegram._parse_inbound. run. py.
    rewrite Hchat. py. rewrite Hnone.
    destruct v; try reflexivity. by destruct (Hnd d).
  - intros c cid Hchat Hid Hnone Hint. unfold Telegram._parse_inbound. run. py.
    rewrite Hchat. py. rewrite Hid. py. by rewrite Hnone, Hint.
  - intros c cid Hchat Hid Hint Hmid.
    pose proof (isinstance_int_not_none _ Hint) as Hnone.
    unfold Telegram._parse_inbound. run. py.
    rewrite Hchat. py. rewrite Hid. py. rewrite Hnone, Hint. py.
    by rewrite Hmid.
  - intros c cid mid Hchat Hid Hint Hmid Hmnone Hmint.
    pose proof (isinstance_int_not_none _ Hint) as Hnone.
    unfold Telegram._parse_inbound. run. py.
    rewrite Hchat. py. rewrite Hid. py. rewrite Hnone, Hint. py.
    rewrite Hmid. py. by rewrite Hmnone, Hmint.
Qed.

(** X3.  What parsing touches.  Whatever the payload, [_parse_inbound] leaves
    the world as it is or adds one [getFile] call to the provider's log;
    chat histories, caches, the error log and the widget's buffer are never
    written. *)
Theorem parse_inbound_frame self payload context w :
  snd (Telegram._parse_inbound P self payload context w) = w
  \/ exists fid,
       snd (Telegram._parse_inbound P self payload context w)
       = with_http_log (http_log w ++ [get_file_request self fid]) w.
Proof.
  unfold Telegram._parse_inbound. run.
  destruct (get_method payload "chat" PNone) as [chat|]; [|by left].
  destruct (is_none chat); [by left|].
  destruct (get_method chat "id" PNone) as [cid|]; [|by left].
  destruct (is_none cid); [by left|].
  destruct (negb (isinstance_int cid)); [by left|].
  destruct (get_method payload "message_id" PNone) as [mid|]; [|by left].
  destruct (is_none mid); [by left|].
  destruct (negb (isinstance_int mid)); [by left|].
  destruct (get_method payload "voice" PNone) as [voice|]; [|by left].
  destruct (truthy voice) eqn:Hvoice; cbn beta iota.
  - rewrite Hvoice.
    destruct (get_method voice "file_id" PNone) as [fid|]; [|by left].
    right. exists fid. rewrite <- (get_file_url_world self fid w).
    destruct (Telegram._get_file_url P self fid w) as [[u|e] w1]; [|done].
    by destruct (get_method payload "text" PNone).
  - destruct (get_method payload "video_note" PNone) as [video|]; [|by left].
    destruct (truthy video).
    + destruct (get_method video "file_id" PNone) as [fid|]; [|by left].
      right. exists fid. rewrite <- (get_file_url_world self fid w).
      destruct (Telegram._get_file_url P self fid w) as [[u|e] w1]; [|done].
      by destruct (get_method payload "text" PNone).
    + destruct (get_method payload "text" PNone) as [t|]; [|by left].
      destruct (negb (is_none t)); by left.
Qed.
End TelegramParsing.

(* ===================================================================== *)
(** ** More on sending                                                    *)
(* ===================================================================== *)

Section TelegramBatches.
Variable P : Platform.
Implicit Types (self : Telegram.TelegramTransport) (w : World).

Lemma with_http_log_nil w : with_http_log (http_log w ++ []) w = w.
Proof. rewrite app_nil_r. by destruct w. Qed.

Lemma send_block_text self b n w :
  sends_as_text b = true -> py_int (chat_id b) = Returns n ->
  Telegram.send_block P self b w
  = (Returns tt,
     with_http_log (http_log w ++ [send_message_request self n (text b)]) w).
Proof.
  unfold sends_as_text. intros Ht Hn. unfold Telegram.send_block.
  rewrite Ht. run. rewrite Hn. reflexivity.
Qed.

Lemma send_texts self blocks ns metadata w :
  Forall2 (fun b n => sends_as_text b = true /\ py_int (chat_id b) = Returns n)
    blocks ns ->
  Telegram._send P self blocks metadata w
  = (Returns tt,
     with_http_log
       (http_log w
          ++ zip_with (fun b n => send_message_request self n (text b))
               blocks ns) w).
Proof.
  unfold Telegram._send. intros Hall. revert w.
  induction Hall as [|b n blocks ns [Ht Hn] _ IH]; intros w.
  - cbn. by rewrite with_http_log_nil.
  - cbn [for_each zip_with]. run.
    rewrite (send_block_text self b n w Ht Hn), IH. cbn.
    by rewrite <- app_assoc.
Qed.



(** X6.  An unsupported block.  A block with no text that is no image, audio
    or video is logged and dropped: nothing is sent for it, and the rest of
    the batch is sent as if it were not there. *)
Theorem send_unsupported_dropped self pre b post metadata w w1 :
  Telegram._send P self pre metadata w = (Returns tt, w1) ->
  sends_as_text b = false -> sends_as_media b = false ->
  Telegram._send P self (pre ++ b :: post) metadata w
  = Telegram._send P self post metadata
      (with_error_log (error_log w1 ++ [UnableToSendBlock (mime_type b)]) w1).
Proof.
  unfold Telegram._send, sends_as_text, sends_as_media.
  intros Epre Ht Hm. rewrite (for_each_app _ _ _ _ _ Epre).
  cbn [for_each]. run. unfold Telegram.send_block. rewrite Ht, Hm.
  unfold logging_error. run. reflexivity.
Qed.

(** The endpoint and the form field of each media kind. *)
Lemma send_block_media self b bytes w :
  sends_as_text b = false -> sends_as_media b = true ->
  block_raw P b = Returns bytes ->
  exists suffix key,
    (mime_type b = Image /\ suffix = "sendPhoto"%string /\ key = "photo"%string
     \/ mime_type b = Audio /\ suffix = "sendAudio"%string /\ key = "audio"%string
     \/ mime_type b = Video /\ suffix = "sendVideo"%string /\ key = "video"%string)
    /\ Telegram.send_block P self b w
       = (let req := upload_request P self suffix key b bytes in
          let resp := provider P (http_log w) req in
          let w1 := with_http_log (http_log w ++ [req]) w in
          if status_code resp =? 200 then (Returns tt, w1)
          else (Raises (SteamshipError
                          (MessageNotSent (chat_id b) (resp_text resp))),
                with_error_log
                  (error_log w
                     ++ [ErrorSendingMessage (resp_text resp) (status_code resp)])
                  w1)).
Proof.
  unfold sends_as_text, sends_as_media. intros Ht Hm Hraw.
  unfold Telegram.send_block. rewrite Ht, Hm.
  unfold is_image, is_audio, is_video in *.
  destruct (mime_type b) eqn:Hk; try discriminate.
  - exists "sendPhoto"%string, "photo"%string. split; [by left|].
    run. rewrite Hraw. unfold request, logging_error, upload_request. run.
    by destruct (status_code _ =? 200).
  - exists "sendAudio"%string, "audio"%string. split; [by right; left|].
    run. rewrite Hraw. unfold request, logging_error, upload_request. run.
    by destruct (status_code _ =? 200).
  - exists "sendVideo"%string, "video"%string. split; [by right; right|].
    run. rewrite Hraw. unfold request, logging_error, upload_request. run.
    by destruct (status_code _ =? 200).
Qed.

(** X7.  A media block the provider accepts.  An image, audio or video block
    without text is uploaded once, to [sendPhoto], [sendAudio] or [sendVideo]
    under the field [photo], [audio] or [video], addressed by the chat id the
    block carries, and the batch goes on. *)
Theorem send_media_accepted self b bytes rest metadata w :
  sends_as_text b = false -> sends_as_media b = true ->
  block_raw P b = Returns bytes ->
  exists suffix key,
    (mime_type b = Image /\ suffix = "sendPhoto"%string /\ key = "photo"%string
     \/ mime_type b = Audio /\ suffix = "sendAudio"%string /\ key = "audio"%string
     \/ mime_type b = Video /\ suffix = "sendVideo"%string /\ key = "video"%string)
    /\ (status_code (provider P (http_log w)
                       (upload_request P self suffix key b bytes)) = 200 ->
        Telegram._send P self (b :: rest) metadata w
        = Telegram._send P self rest metadata
            (with_http_log
               (http_log w ++ [upload_request P self suffix key b bytes]) w)).
Proof.
  intros Ht Hm Hraw.
  destruct (send_block_media self b bytes w Ht Hm Hraw)
    as (suffix & key & Hkind & E).
  exists suffix, key. split; [exact Hkind|]. intros Hok.
  unfold Telegram._send. cbn [for_each]. run. rewrite E. cbn zeta.
  by rewrite Hok.
Qed.

(** X8.  A media block the provider refuses.  When the upload of a media
    block is answered with a status other than 200, the refusal is logged and
    a [SteamshipError] raised; the texts of the batch before it have been
    sent and stay sent, the blocks after it are never sent. *)
Theorem send_media_refused_in_batch self pre ns b bytes post metadata w :
  Forall2 (fun b n => sends_as_text b = true /\ py_int (chat_id b) = Returns n)
    pre ns ->
  sends_as_text b = false -> sends_as_media b = true ->
  block_raw P b = Returns bytes ->
  let sent := zip_with (fun b n => send_message_request self n (text b)) pre ns in
  exists suffix key,
    (mime_type b = Image /\ suffix = "sendPhoto"%string /\ key = "photo"%string
     \/ mime_type b = Audio /\ suffix = "sendAudio"%string /\ key = "audio"%string
     \/ mime_type b = Video /\ suffix = "sendVideo"%string /\ key = "video"%string)
    /\ let req := upload_request P self suffix key b bytes in
       let resp := provider P (http_log w ++ sent) req in
       (status_code resp <> 200 ->
        Telegram._send P self (pre ++ b :: post) metadata w
        = (Raises (SteamshipError (MessageNotSent (chat_id b) (resp_text resp))),
           with_error_log
             (error_log w
                ++ [ErrorSendingMessage (resp_text resp) (status_code resp)])
             (with_http_log (http_log w ++ sent ++ [req]) w))).
Proof.
  intros Hpre Ht Hm Hraw sent.
  pose proof (send_texts self pre ns metadata w Hpre) as Epre. fold sent in Epre.
  destruct (send_block_media self b bytes (with_http_log (http_log w ++ sent) w)
              Ht Hm Hraw) as (suffix & key & Hkind & E).
  exists suffix, key. split; [exact Hkind|]. intros req resp Hrefused.
  cbn zeta in E. cbn [http_log with_http_log] in E. fold req resp in E.
  apply Z.eqb_neq in Hrefused. rewrite Hrefused in E.
  rewrite (send_stops_at_failure P self pre b post metadata w _ _ _ Epre E).
  cbn. by rewrite <- app_assoc.
Qed.
End TelegramBatches.

Section TelegramEmission.
Variable P : Platform.
Implicit Types (self : Telegram.TelegramTransport) (w : World).

(** *** The emit func *)

Lemma set_chat_id_accepted c b :
  accepts_chat_id c b = true -> set_chat_id c b = Returns (addressed c b).
Proof.
  unfold accepts_chat_id, set_chat_id, addressed.
  destruct (is_none (chat_id b)); [done|]. cbn [orb]. by intros ->.
Qed.

Lemma set_chat_id_refused c b :
  accepts_chat_id c b = false ->
  set_chat_id c b = Raises (SteamshipError (ChatIdAlreadySet (chat_id b) c)).
Proof.
  unfold accepts_chat_id, set_chat_id.
  destruct (is_none (chat_id b)); [done|]. cbn [orb]. by intros ->.
Qed.

(** Equal values convert to the same integer, if to any. *)
Lemma py_eq_int a c : py_eq a c = true -> py_int a = py_int c.
Proof.
  destruct a as [|x|n|s|l|d], c as [|y|m|t|l'|d']; try reflexivity;
    cbn [py_eq]; intros H; try discriminate H; cbn [py_int].
  - by rewrite (eqb_prop _ _ H).
  - apply Z.eqb_eq in H. by rewrite H.
  - apply Z.eqb_eq in H. by rewrite H.
  - apply Z.eqb_eq in H. by rewrite H.
  - apply String.eqb_eq in H. by rewrite H.
Qed.

(** An accepted block ends up with the chat id, or with an equal one. *)
Lemma addressed_chat_id c b :
  accepts_chat_id c b = true ->
  chat_id (addressed c b) = c \/ py_eq (chat_id (addressed c b)) c = true.
Proof.
  unfold accepts_chat_id, addressed.
  destruct (is_none (chat_id b)); [by left|]. cbn [orb]. by right.
Qed.

Lemma addressed_int c b :
  accepts_chat_id c b = true -> py_int (chat_id (addressed c b)) = py_int c.
Proof.
  intros Hb. destruct (addressed_chat_id c b Hb) as [-> | H]; [done|].
  by apply py_eq_int.
Qed.

Lemma addressed_sends_as_text c b :
  sends_as_text (addressed c b) = sends_as_text b.
Proof. unfold addressed. by destruct (is_none (chat_id b)). Qed.

(** The loop over the emitted blocks: it goes through when every block
    accepts the chat id, and stops at the first block that does not. *)
Lemma update_each_accepted c blocks w :
  Forall (fun b => accepts_chat_id c b = true) blocks ->
  update_each (fun block => lift (set_chat_id c block)) blocks w
  = (Returns (map (addressed c) blocks), w).
Proof.
  induction 1 as [|b blocks Hb _ IH]; [reflexivity|].
  cbn [update_each map]. run. rewrite (set_chat_id_accepted c b Hb).
  run. by rewrite IH.
Qed.

Lemma update_each_refused c pre b post w :
  Forall (fun b => accepts_chat_id c b = true) pre ->
  accepts_chat_id c b = false ->
  update_each (fun block => lift (set_chat_id c block)) (pre ++ b :: post) w
  = (Raises (SteamshipError (ChatIdAlreadySet (chat_id b) c)), w).
Proof.
  intros Hpre Hb. induction Hpre as [|a pre Ha _ IH].
  - cbn [app update_each]. run. by rewrite (set_chat_id_refused c b Hb).
  - cbn [app update_each]. run. rewrite (set_chat_id_accepted c a Ha).
    run. by rewrite IH.
Qed.

Lemma emit_func_accepted self c blocks metadata w :
  Forall (fun b => accepts_chat_id c b = true) blocks ->
  Telegram.build_emit_func P self c blocks metadata w
  = send (H := Telegram.telegram_transport P) self (map (addressed c) blocks)
      (Some metadata) w.
Proof.
  intros Hall. unfold Telegram.build_emit_func.
  by rewrite (bind_returns _ _ _ _ _ (update_each_accepted c blocks w Hall)).
Qed.

Lemma emit_func_refused self c pre b post metadata w :
  Forall (fun b => accepts_chat_id c b = true) pre ->
  accepts_chat_id c b = false ->
  Telegram.build_emit_func P self c (pre ++ b :: post) metadata w
  = (Raises (SteamshipError (ChatIdAlreadySet (chat_id b) c)), w).
Proof.
  intros Hpre Hb. unfold Telegram.build_emit_func.
  by rewrite (bind_raises _ _ _ _ _ (update_each_refused c pre b post w Hpre Hb)).
Qed.

Lemma send_texts_addressed self c n blocks metadata w :
  Forall (fun b => accepts_chat_id c b = true) blocks ->
  Forall (fun b => sends_as_text b = true) blocks ->
  py_int c = Returns n ->
  Telegram._send P self (map (addressed c) blocks) metadata w
  = (Returns tt,
     with_http_log
       (http_log w ++ map (fun b => send_message_request self n (text b)) blocks)
       w).
Proof.
  intros Hacc Hall Hn. unfold Telegram._send. revert w.
  induction Hall as [|b blocks Hb _ IH]; intros w.
  - cbn. by rewrite with_http_log_nil.
  - apply Forall_cons in Hacc as [Ha Hacc].
    cbn [map for_each]. run.
    rewrite (send_block_text P self (addressed c b) n w);
      [|by rewrite addressed_sends_as_text
       |by rewrite (addressed_int c b Ha)].
    rewrite (IH Hacc). cbn.
    assert (text (addressed c b) = text b) as ->
      by (unfold addressed; by destruct (is_none (chat_id b))).
    by rewrite <- app_assoc.
Qed.

Lemma emit_func_texts self c n blocks metadata w :
  Forall (fun b => accepts_chat_id c b = true) blocks ->
  Forall (fun b => sends_as_text b = true) blocks ->
  py_int c = Returns n ->
  Telegram.build_emit_func P self c blocks metadata w
  = (Returns tt,
     with_http_log
       (http_log w ++ map (fun b => send_message_request self n (text b)) blocks)
       w).
Proof.
  intros Hacc Hall Hn. rewrite (emit_func_accepted self c blocks metadata w Hacc).
  unfold send. cbn [_send Telegram.telegram_transport].
  by apply send_texts_addressed.
Qed.

(** C9, as amended.  The emit func built for a chat calls [set_chat_id]
    with that chat id on every emitted block before it sends.  When every
    block carries no chat id or an equal one, [send] is handed the blocks
    addressed to the chat: text blocks go out as one [sendMessage] each to
    that chat, in order, and when the blocks carry the chat id itself every
    provider call, uploads included, is addressed to it.  A block that
    carries another chat id is not overwritten: the setter's
    [SteamshipError] leaves the emit func, and nothing is sent, neither for
    that block nor for the others. *)
Theorem build_emit_func_addresses_chat self c blocks metadata w :
  (Forall (fun b => accepts_chat_id c b = true) blocks ->
   Telegram.build_emit_func P self c blocks metadata w
   = send (H := Telegram.telegram_transport P) self (map (addressed c) blocks)
       (Some metadata) w
   /\ Forall (fun b => chat_id b = c \/ py_eq (chat_id b) c = true)
        (map (addressed c) blocks)
   /\ (forall n,
         py_int c = Returns n ->
         Forall (fun b => sends_as_text b = true) blocks ->
         Telegram.build_emit_func P self c blocks metadata w
         = (Returns tt,
            with_http_log
              (http_log w
                 ++ map (fun b => send_message_request self n (text b)) blocks)
              w))
   /\ (Forall (fun b => chat_id (addressed c b) = c) blocks ->
       exists sent,
         http_log (snd (Telegram.build_emit_func P self c blocks metadata w))
         = http_log w ++ sent
         /\ Forall (addressed_to P self c) sent))
  /\ (forall pre b post,
        blocks = pre ++ b :: post ->
        Forall (fun b => accepts_chat_id c b = true) pre ->
        accepts_chat_id c b = false ->
        Telegram.build_emit_func P self c blocks metadata w
        = (Raises (SteamshipError (ChatIdAlreadySet (chat_id b) c)), w)).
Proof.
  split.
  - intros Hacc. split; [by apply emit_func_accepted|]. split; [|split].
    + apply List.Forall_map. eapply Forall_impl; [exact Hacc|].
      intros b. apply addressed_chat_id.
    + intros n Hn Hall. by apply emit_func_texts.
    + intros Hc. rewrite (emit_func_accepted self c blocks metadata w Hacc).
      unfold send. cbn [_send Telegram.telegram_transport].
      apply send_addressed. by apply List.Forall_map.
  - intros pre b post -> Hpre Hb. by apply emit_func_refused.
Qed.
End TelegramEmission.

Section EmissionAtSamples.
Import Samples MoreSamples.

Lemma build_emit_func_addresses_chat_witness :
  Telegram.build_emit_func refusing (telegram silent_agent) (PInt 1)
    [hi_there; text_block] ∅ empty_world
  = (Returns tt,
     with_http_log
       (http_log empty_world
          ++ map (fun b =>
                    send_message_request (telegram silent_agent) 1 (text b))
               [hi_there; text_block]) empty_world)
  /\ Telegram.build_emit_func refusing (telegram silent_agent) (PInt 2)
       ([hi_there] ++ text_block :: [second_text_block]) ∅ empty_world
     = (Raises (SteamshipError (ChatIdAlreadySet (chat_id text_block) (PInt 2))),
        empty_world).
Proof.
  split.
  - apply (proj1 (build_emit_func_addresses_chat refusing
                    (telegram silent_agent) (PInt 1) [hi_there; text_block] ∅
                    empty_world));
      [repeat constructor | reflexivity | repeat constructor].
  - apply (proj2 (build_emit_func_addresses_chat refusing
                    (telegram silent_agent) (PInt 2)
                    ([hi_there] ++ text_block :: [second_text_block]) ∅
                    empty_world)
             [hi_there] text_block [second_text_block]);
      [reflexivity | repeat constructor | reflexivity].
Defined.

(** A block that is already addressed to chat 1 is emitted in the
    conversation of chat 2: its chat id is not overwritten and nothing is
    sent. *)
Lemma emit_block_of_other_chat :
  Telegram.build_emit_func Samples.platform (telegram silent_agent) (PInt 2)
    [text_block] ∅ empty_world
  = (Raises (SteamshipError (ChatIdAlreadySet (PInt 1) (PInt 2))), empty_world).
Proof. reflexivity. Qed.
End EmissionAtSamples.

Section TelegramReplies.
Variable P : Platform.
Implicit Types (self : Telegram.TelegramTransport) (w : World)
  (m c : gmap string pyval).

End TelegramReplies.

(* ===================================================================== *)
(** ** More on the webhook endpoint                                       *)
(* ===================================================================== *)

Section TelegramEndToEnd.
Variable P : Platform.
Implicit Types (self : Telegram.TelegramTransport) (w : World)
  (m c : gmap string pyval).

(** X10.  The file lookup.  [_get_file_url] returns a url exactly when the
    provider's answer is a JSON object whose ["result"] is an object with a
    ["file_path"]; the url is then the download address of that path.  In
    every case the one [getFile] call has been made. *)
Theorem get_file_url_returns_iff self fid w :
  let resp := provider P (http_log w) (get_file_request self fid) in
  (forall u w',
     Telegram._get_file_url P self fid w = (Returns u, w') <->
     w' = with_http_log (http_log w ++ [get_file_request self fid]) w
     /\ exists j r path,
          resp_json resp = Some (PDict j)
          /\ j !! "result" = Some (PDict r)
          /\ r !! "file_path" = Some path
          /\ u = ("https://api.telegram.org/file/bot"
                    ++ Telegram.bot_token self ++ "/"
                    ++ py_str (py_repr P) path)%string)
  /\ (resp_json resp = None ->
      Telegram._get_file_url P self fid w
      = (Raises JSONDecodeError,
         with_http_log (http_log w ++ [get_file_request self fid]) w))
  /\ (forall j, resp_json resp = Some (PDict j) -> j !! "result" = None ->
      Telegram._get_file_url P self fid w
      = (Raises (KeyError "result"),
         with_http_log (http_log w ++ [get_file_request self fid]) w))
  /\ (forall j r, resp_json resp = Some (PDict j) ->
      j !! "result" = Some (PDict r) -> r !! "file_path" = None ->
      Telegram._get_file_url P self fid w
      = (Raises (KeyError "file_path"),
         with_http_log (http_log w ++ [get_file_request self fid]) w)).
Proof.
  intros resp. subst resp.
  unfold Telegram._get_file_url, Telegram._get_file, request, json,
    get_file_request. run.
  split; [intros u w'; split|split; [|split]].
  - intros E.
    destruct (resp_json _) as [j|]; [|discriminate E].
    destruct j as [| | | | |j]; try discriminate E. cbn [getitem] in E.
    destruct (j !! "result") as [r|] eqn:Hr; [|discriminate E].
    destruct r as [| | | | |r]; try discriminate E. cbn [getitem] in E.
    destruct (r !! "file_path") as [path|] eqn:Hp; [|discriminate E].
    injection E as <- <-. split; [reflexivity|]. by exists j, r, path.
  - intros (-> & j & r & path & Hj & Hr & Hp & ->).
    rewrite Hj. py. rewrite Hr. py. by rewrite Hp.
  - by intros ->.
  - intros j -> Hr. py. by rewrite Hr.
  - intros j r -> Hr Hp. py. rewrite Hr. py. by rewrite Hp.
Qed.

(** The context of a conversation, and the user's message appended to its
    chat history: only the store is written. *)
Lemma context_then_append service cid t tags w :
  let k := context_keys_for service cid in
  exists context w2 w3,
    build_default_context service cid w = (Returns context, w2)
    /\ append_user_message (chat_history context) t tags w2 = (Returns tt, w3)
    /\ emit_funcs context = []
    /\ history_entries k w3
       = history_entries k w
           ++ [{| entry_role := User; entry_text := t; entry_tags := tags |}]
    /\ http_log w3 = http_log w /\ error_log w3 = error_log w
    /\ agent_runs w3 = agent_runs w /\ message_output w3 = message_output w
    /\ uuids_drawn w3 = uuids_drawn w.
Proof.
  intros k. unfold build_default_context. fold k.
  destruct (get_or_create_store (service_client service) k None true
              (use_llm_cache service) (use_action_cache service) w)
    as (context & w2 & h & w1 & Eh & E & Hist & S & _).
  destruct (history_get_or_create_entries _ _ _ _ _ _ _ Eh)
    as (Hblocks & Hfound & Hout1).
  assert (get_existing_file k w2 = Some (file h)) as Hfound2.
  { rewrite <- Hfound. symmetry. apply get_existing_file_files, S. }
  destruct (append_message_entries User h t tags k w2 Hfound2)
    as (w3 & Eapp & Hentries & Hout3).
  exists context, w2, w3. split; [exact E|].
  split; [by rewrite Hist|].
  assert (emit_funcs context = []) as Hemit.
  { by destruct (get_or_create_returned _ _ _ _ _ _ _ _ _ E) as (_ & _ & _ & _ & ?). }
  split; [exact Hemit|]. split; [by rewrite Hentries, Hblocks|].
  assert (w3 = with_files (files w3) w2) as Ew3.
  { unfold append_message in Eapp. run. by injection Eapp as <-. }
  assert (exists new, w1 = with_files (files w ++ new) w) as (new & Ew1).
  { destruct (history_get_or_create_resolves (service_client service) k None
                true w) as (h0 & new & Eh0 & _).
    rewrite Eh in Eh0. injection Eh0 as _ Ew. by exists new. }
  destruct S as (_ & S1 & S2 & S3 & S4 & S5).
  rewrite Ew3. cbn. rewrite <- S1, <- S2, <- S3, <- S4, <- S5, Ew1. by cbn.
Qed.

(** X11.  An update without a chat id.  When the update has no message, or its
    message has no chat, or the chat has no id, the parse error is swallowed:
    [telegram_respond] acknowledges and leaves the world untouched. *)
Theorem telegram_respond_without_chat_id self (kwargs : gmap string pyval) m w :
  default (PDict ∅) (kwargs !! "message") = PDict m ->
  m !! "chat" = None
  \/ (exists c, m !! "chat" = Some (PDict c) /\ default PNone (c !! "id") = PNone) ->
  Telegram.telegram_respond P self kwargs w = (Returns "OK"%string, w).
Proof.
  intros Hm Hchat. unfold Telegram.telegram_respond. rewrite Hm. run. py.
  unfold Telegram.respond_try, Telegram.respond_except, parse_inbound.
  cbn [_parse_inbound Telegram.telegram_transport].
  unfold Telegram._parse_inbound. run. py.
  destruct Hchat as [Hchat | (c & Hchat & Hid)]; rewrite Hchat; py.
  - rewrite lookup_empty. py. reflexivity.
  - rewrite Hid. py. reflexivity.
Qed.

(** X12.  An update whose message or chat is no object.  The chat id is read
    before the [try]: when the message is present and no JSON object, or its
    chat is present and no JSON object, [AttributeError] leaves
    [telegram_respond], nothing is parsed and nothing acknowledged. *)
Theorem telegram_respond_shape_error self (kwargs : gmap string pyval) w :
  (forall v, kwargs !! "message" = Some v -> (forall d, v <> PDict d) ->
     Telegram.telegram_respond P self kwargs w
     = (Raises (AttributeError "get"), w))
  /\ (forall m v, kwargs !! "message" = Some (PDict m) ->
        m !! "chat" = Some v -> (forall d, v <> PDict d) ->
        Telegram.telegram_respond P self kwargs w
        = (Raises (AttributeError "get"), w)).
Proof.
  split.
  - intros v Hv Hnd. unfold Telegram.telegram_respond. rewrite Hv. run. py.
    destruct v; try reflexivity. by destruct (Hnd d).
  - intros m v Hm Hv Hnd. unfold Telegram.telegram_respond. rewrite Hm. run. py.
    rewrite Hv. py. destruct v; try reflexivity. by destruct (Hnd d).
Qed.

(** The endpoint after its two lookups, for a message with a chat id. *)
Lemma telegram_respond_with_chat self (kwargs : gmap string pyval) m c cid w :
  kwargs !! "message" = Some (PDict m) ->
  m !! "chat" = Some (PDict c) -> c !! "id" = Some cid ->
  Telegram.telegram_respond P self kwargs w
  = (_ ← try_except (Telegram.respond_try P self (PDict m) cid)
           (Telegram.respond_except P self cid);
     ret "OK"%string) w.
Proof.
  intros Hm Hchat Hid. unfold Telegram.telegram_respond. rewrite Hm. run. py.
  rewrite Hchat. py. rewrite Hid. py. reflexivity.
Qed.

(** X13.  A message that is rejected.  With an integer chat id, a missing
    message id or one that is no integer is answered by one error message
    to the chat; no entry is appended, no agent runs, and the update is
    acknowledged. *)
Theorem telegram_respond_rejected_message self (kwargs : gmap string pyval)
    m c cid n w :
  kwargs !! "message" = Some (PDict m) ->
  m !! "chat" = Some (PDict c) -> c !! "id" = Some cid ->
  isinstance_int cid = true -> py_int cid = Returns n ->
  default PNone (m !! "message_id") = PNone
  \/ isinstance_int (default PNone (m !! "message_id")) = false ->
  (forall e, truthy (PStr (error_text P (Some e))) = true) ->
  exists msg,
    (msg = NoMessageIdFound (PDict m)
     \/ msg = BadMessageId (default PNone (m !! "message_id")))
    /\ Telegram.telegram_respond P self kwargs w
       = (Returns "OK"%string,
          with_http_log
            (http_log w
               ++ [send_message_request self n
                     (PStr (error_text P (Some (SteamshipError msg))))]) w).
Proof.
  intros Hm Hchat Hid Hint Hn Hmid Htext.
  rewrite (telegram_respond_with_chat self kwargs m c cid w Hm Hchat Hid).
  pose proof (isinstance_int_not_none _ Hint) as Hnone.
  assert (exists msg,
    (msg = NoMessageIdFound (PDict m)
     \/ msg = BadMessageId (default PNone (m !! "message_id")))
    /\ Telegram.respond_try P self (PDict m) cid w
       = (Raises (SteamshipError msg), w)) as (msg & Hmsg & Etry).
  { unfold Telegram.respond_try, parse_inbound.
    cbn [_parse_inbound Telegram.telegram_transport].
    unfold Telegram._parse_inbound. run. py.
    rewrite Hchat. py. rewrite Hid. py. rewrite Hnone, Hint. py.
    destruct (is_none (default PNone (m !! "message_id"))) eqn:Hmn.
    - eexists. split; [by left | reflexivity].
    - destruct Hmid as [Hmid | Hmid]; [by rewrite Hmid in Hmn|].
      rewrite Hmid. py. eexists. split; [by right | reflexivity]. }
  exists msg. split; [exact Hmsg|]. run. rewrite Etry.
  by rewrite (respond_except_int P self cid n _ w Hint Hn (Htext _)).
Qed.

(** X14.  A voice message whose file cannot be looked up.  When [getFile]
    fails for the attachment, the update is still acknowledged: after the one
    [getFile] call, one error message goes to the chat; no entry is appended
    and no agent runs. *)
Theorem telegram_respond_file_lookup_fails self (kwargs : gmap string pyval)
    m c cid n mid v e w w1 :
  kwargs !! "message" = Some (PDict m) ->
  m !! "chat" = Some (PDict c) -> c !! "id" = Some cid ->
  isinstance_int cid = true -> py_int cid = Returns n ->
  m !! "message_id" = Some mid -> isinstance_int mid = true ->
  attachment m = PDict v -> truthy (PDict v) = true ->
  Telegram._get_file_url P self (default PNone (v !! "file_id")) w
  = (Raises e, w1) ->
  truthy (PStr (error_text P (Some e))) = true ->
  Telegram.telegram_respond P self kwargs w
  = (Returns "OK"%string,
     with_http_log
       (http_log w
          ++ [get_file_request self (default PNone (v !! "file_id"));
              send_message_request self n (PStr (error_text P (Some e)))]) w).
Proof.
  intros Hm Hchat Hid Hint Hn Hmid Hmidint Hatt Htruthy Hurl Htext.
  rewrite (telegram_respond_with_chat self kwargs m c cid w Hm Hchat Hid).
  pose proof (isinstance_int_not_none _ Hint) as Hnone.
  pose proof (isinstance_int_not_none _ Hmidint) as Hmnone.
  assert (Telegram.respond_try P self (PDict m) cid w = (Raises e, w1)) as Etry.
  { unfold Telegram.respond_try, parse_inbound.
    cbn [_parse_inbound Telegram.telegram_transport].
    unfold Telegram._parse_inbound. run. py.
    rewrite Hchat. py. rewrite Hid. py. rewrite Hnone, Hint. py.
    rewrite Hmid. py. rewrite Hmnone, Hmidint. py.
    unfold attachment, py_or in Hatt.
    destruct (truthy (default PNone (m !! "voice")));
      rewrite Hatt, Htruthy; py; by rewrite Hurl. }
  run. rewrite Etry.
  rewrite (respond_except_int P self cid n e w1 Hint Hn Htext).
  pose proof (get_file_url_world P self (default PNone (v !! "file_id")) w) as Hw.
  rewrite Hurl in Hw. cbn [snd] in Hw. subst w1. cbn.
  by rewrite <- app_assoc.
Qed.

(** The [try] block for a text message, up to the agent's run. *)
Lemma respond_try_text self m c cid mid t w :
  m !! "chat" = Some (PDict c) ->
  c !! "id" = Some cid -> isinstance_int cid = true ->
  m !! "message_id" = Some mid -> isinstance_int mid = true ->
  truthy (attachment m) = false ->
  m !! "text" = Some t -> is_none t = false ->
  let k := context_keys_for (Telegram.agent_service self) cid in
  exists context w3,
    Telegram.respond_try P self (PDict m) cid w
    = (response ← run_agent (Telegram.agent_service self)
                    (get_default_agent (Telegram.agent_service self))
                    (set_emit_funcs [Telegram.build_emit_func P self cid] context);
       match response with
       | Some response =>
           send (H := Telegram.telegram_transport P) self response None
       | None => ret tt
       end) w3
    /\ history_entries k w3 = history_entries k w ++ [user_entry t]
    /\ http_log w3 = http_log w /\ error_log w3 = error_log w
    /\ agent_runs w3 = agent_runs w.
Proof.
  intros Hchat Hid Hint Hmid Hmidint Hatt Ht Htn k.
  destruct (context_then_append (Telegram.agent_service self) cid t [] w)
    as (context & w2 & w3 & Ectx & Eapp & _ & Hentries & Hhttp & Herr & Hruns & _).
  exists context, w3. split; [|done].
  unfold Telegram.respond_try, parse_inbound.
  cbn [_parse_inbound Telegram.telegram_transport].
  rewrite (bind_returns _ _ _ _ _
             (parse_inbound_text P self m c cid mid t None w
                Hchat Hid Hint Hmid Hmidint Hatt Ht Htn)).
  cbn [text tags].
  rewrite (bind_returns _ _ _ _ _ Ectx).
  by rewrite (bind_returns _ _ _ _ _ Eapp).
Qed.

(** X15.  A text message, answered.  For a text message with an integer chat
    id, when the agent's run emits a list of text blocks that carry no chat id
    (or one equal to the update's), the user's text is appended to the
    conversation's chat history, the agent runs once, every emitted block is
    sent by one [sendMessage] to the chat of the update, in order, and the
    update is acknowledged. *)
Theorem telegram_respond_delivers self (kwargs : gmap string pyval)
    m c cid n mid t blocks w :
  kwargs !! "message" = Some (PDict m) ->
  m !! "chat" = Some (PDict c) ->
  c !! "id" = Some cid -> isinstance_int cid = true -> py_int cid = Returns n ->
  m !! "message_id" = Some mid -> isinstance_int mid = true ->
  truthy (attachment m) = false ->
  m !! "text" = Some t -> is_none t = false ->
  (forall context w0,
     default_agent (Telegram.agent_service self) context w0
     = {| events := [Emission blocks]; result := Returns None |}) ->
  Forall (fun b => accepts_chat_id cid b = true) blocks ->
  Forall (fun b => sends_as_text b = true) blocks ->
  let k := context_keys_for (Telegram.agent_service self) cid in
  exists w',
    Telegram.telegram_respond P self kwargs w = (Returns "OK"%string, w')
    /\ http_log w'
       = http_log w ++ map (fun b => send_message_request self n (text b)) blocks
    /\ history_entries k w' = history_entries k w ++ [user_entry t]
    /\ agent_runs w' = S (agent_runs w)
    /\ error_log w' = error_log w.
Proof.
  intros Hm Hchat Hid Hint Hn Hmid Hmidint Hatt Ht Htn Hagent Hacc Hblocks k.
  rewrite (telegram_respond_with_chat self kwargs m c cid w Hm Hchat Hid).
  destruct (respond_try_text self m c cid mid t w Hchat Hid Hint Hmid Hmidint
              Hatt Ht Htn)
    as (context & w3 & Etry & Hentries & Hhttp & Herr & Hruns).
  run. rewrite Etry. unfold run_agent, get_default_agent. run.
  rewrite Hagent. cbn [events result for_each perform]. unfold emit.
  cbn [emit_funcs set_emit_funcs for_each metadata]. run.
  rewrite (emit_func_texts P self cid n blocks _ _ Hacc Hblocks Hn).
  eexists. split; [reflexivity|]. cbn.
  by rewrite Hhttp, Herr, Hruns.
Qed.

(** X29.  A text message, and an emission addressed elsewhere.  When the
    agent's run emits a list with a block that already carries another chat
    id, the emit func raises before anything is sent: none of the emitted
    blocks goes out, the user's text stays in the chat history, one error
    message is sent to the chat of the update, and the update is
    acknowledged. *)
Theorem telegram_respond_emission_refused self (kwargs : gmap string pyval)
    m c cid n mid t pre b post w :
  kwargs !! "message" = Some (PDict m) ->
  m !! "chat" = Some (PDict c) ->
  c !! "id" = Some cid -> isinstance_int cid = true -> py_int cid = Returns n ->
  m !! "message_id" = Some mid -> isinstance_int mid = true ->
  truthy (attachment m) = false ->
  m !! "text" = Some t -> is_none t = false ->
  (forall context w0,
     default_agent (Telegram.agent_service self) context w0
     = {| events := [Emission (pre ++ b :: post)]; result := Returns None |}) ->
  Forall (fun b => accepts_chat_id cid b = true) pre ->
  accepts_chat_id cid b = false ->
  let e := SteamshipError (ChatIdAlreadySet (chat_id b) cid) in
  truthy (PStr (error_text P (Some e))) = true ->
  let k := context_keys_for (Telegram.agent_service self) cid in
  exists w',
    Telegram.telegram_respond P self kwargs w = (Returns "OK"%string, w')
    /\ http_log w'
       = http_log w ++ [send_message_request self n (PStr (error_text P (Some e)))]
    /\ history_entries k w' = history_entries k w ++ [user_entry t]
    /\ agent_runs w' = S (agent_runs w).
Proof.
  intros Hm Hchat Hid Hint Hn Hmid Hmidint Hatt Ht Htn Hagent Hpre Hb e Htext k.
  rewrite (telegram_respond_with_chat self kwargs m c cid w Hm Hchat Hid).
  destruct (respond_try_text self m c cid mid t w Hchat Hid Hint Hmid Hmidint
              Hatt Ht Htn)
    as (context & w3 & Etry & Hentries & Hhttp & Herr & Hruns).
  run. rewrite Etry. unfold run_agent, get_default_agent. run.
  rewrite Hagent. cbn [events result for_each perform]. unfold emit.
  cbn [emit_funcs set_emit_funcs for_each metadata]. run.
  rewrite (emit_func_refused P self cid pre b post _ _ Hpre Hb).
  fold e. rewrite (respond_except_int P self cid n e _ Hint Hn Htext).
  eexists. split; [reflexivity|]. cbn.
  by rewrite Hhttp, Hruns.
Qed.

End TelegramEndToEnd.

(* ===================================================================== *)
(** ** More on the widget endpoint                                        *)
(* ===================================================================== *)

Section WidgetEndToEnd.
Variable P : Platform.
Implicit Types (self : Widget.SteamshipWidgetTransport) (w : World)
  (payload : gmap string pyval).

(** X17.  A request without a question.  [answer] raises the [SteamshipError]
    of the parser (the parse is outside the [try]) and leaves the world
    untouched: no message id is drawn, no context resolved, nothing appended,
    no agent run. *)
Theorem answer_without_question self payload w :
  default PNone (payload !! "question") = PNone ->
  Widget.answer P self payload w
  = (Raises (SteamshipError (NoQuestionFound (PDict payload))), w).
Proof.
  intros Hq. unfold Widget.answer, Widget.answer_context, parse_inbound.
  cbn [_parse_inbound Widget.widget_transport]. unfold Widget._parse_inbound.
  run. py. rewrite Hq. reflexivity.
Qed.

(** With [save_for_emit] as the only emit func, a run's events always go
    through, and the buffer ends as the last emission. *)
Lemma perform_buffers self context evs w :
  emit_funcs context = [Widget.save_for_emit self] ->
  exists w',
    for_each (perform context) evs w = (Returns tt, w')
    /\ message_output w' = last_emission evs (message_output w)
    /\ agent_runs w' = agent_runs w /\ uuids_drawn w' = uuids_drawn w
    /\ (Forall (fun ev => is_emission ev = true) evs -> files w' = files w).
Proof.
  intros Hemit. revert w. induction evs as [|ev evs IH]; intros w.
  - by exists w.
  - cbn [for_each]. run. destruct ev as [blocks|t tags].
    + cbn [perform]. unfold emit. rewrite Hemit. cbn [for_each].
      unfold Widget.save_for_emit. run.
      destruct (IH (with_message_output (Some blocks) w))
        as (w' & E & Hout & Hr & Hu & Hf).
      exists w'. rewrite E. cbn [last_emission]. repeat split; try done.
      intros Hall. apply Hf. by inversion Hall.
    + cbn [perform]. unfold append_agent_message, append_message. run.
      match goal with |- context [for_each _ evs ?w0] =>
        destruct (IH w0) as (w' & E & Hout & Hr & Hu & Hf) end.
      exists w'. rewrite E. cbn [last_emission]. repeat split; try done.
      intros Hall. by inversion Hall.
Qed.

(** X18.  The last emission wins.  When the agent's run returns, [answer]
    returns the blocks of the run's last emission; what the run emitted
    before is lost, and a run without emission leaves the buffer of the
    previous request to be returned ([AttributeError] when there is
    none). *)
Theorem answer_returns_last_emission self payload q run r w :
  payload !! "question" = Some q -> is_none q = false ->
  (forall context w0,
     default_agent (Widget.agent_service self) context w0 = run) ->
  result run = Returns r ->
  exists w',
    Widget.answer P self payload w
    = (match last_emission (events run) (message_output w) with
       | Some blocks => Returns blocks
       | None => Raises (AttributeError "message_output")
       end, w')
    /\ message_output w' = last_emission (events run) (message_output w).
Proof.
  intros Hq Hnone Hagent Hr.
  destruct (answer_context_spec P self payload q w Hq Hnone)
    as (incoming & context & w3 & E & _ & Hemit & _ & Hout).
  destruct (perform_buffers self context (events run)
              (with_agent_runs (S (agent_runs w3)) w3) Hemit)
    as (w4 & Ep & Hout4 & _).
  cbn [message_output with_agent_runs] in Hout4. rewrite Hout in Hout4.
  unfold Widget.answer. rewrite (bind_returns _ _ _ _ _ E). cbn [fst snd].
  unfold Widget.answer_run, run_agent, get_default_agent. run.
  rewrite Hagent, Ep, Hr. unfold Widget.read_message_output. run.
  rewrite Hout4. exists w4.
  by destruct (last_emission (events run) (message_output w)).
Qed.

(** X19.  An exception discards the emissions.  When the agent's run raises,
    whatever it had emitted, [answer] returns the single error block of the
    session. *)
Theorem answer_exception_overrides_emissions self payload q run e w :
  payload !! "question" = Some q -> is_none q = false ->
  (forall context w0,
     default_agent (Widget.agent_service self) context w0 = run) ->
  result run = Raises e ->
  exists w',
    Widget.answer P self payload w
    = (Returns
         [response_for_exception P (Some e)
            (PStr (py_str (py_repr P)
                     (default (PStr "default") (payload !! "chat_session_id"))))],
       w').
Proof.
  intros Hq Hnone Hagent Hr.
  destruct (answer_context_spec P self payload q w Hq Hnone)
    as (incoming & context & w3 & E & Hchat & Hemit & _).
  destruct (perform_buffers self context (events run)
              (with_agent_runs (S (agent_runs w3)) w3) Hemit)
    as (w4 & Ep & _).
  unfold Widget.answer. rewrite (bind_returns _ _ _ _ _ E). cbn [fst snd].
  unfold Widget.answer_run, run_agent, get_default_agent. run.
  rewrite Hagent, Ep, Hr, Hchat. unfold Widget.read_message_output. run.
  cbn [message_output with_message_output]. by eexists.
Qed.


End WidgetEndToEnd.

(* ===================================================================== *)
(** ** More on the agent context                                          *)
(* ===================================================================== *)

Section ContextOrder.
Context `{Persistence}.

(** X21.  The order of resolution.  [get_or_create] resolves the chat history
    first: its exception is the exception of [get_or_create], before any
    cache is resolved.  With both flags off no cache is resolved at all: the
    context is the chat history with both caches unset, in the world the
    resolution of the history left.  And an exception of the action cache
    comes before the llm cache is resolved. *)
Theorem get_or_create_resolution_order client k tags searchable use_llm
    use_action w :
  (forall e w1,
     ChatHistory_get_or_create client k tags searchable w = (Raises e, w1) ->
     get_or_create client k tags searchable use_llm use_action w
     = (Raises e, w1))
  /\ (forall h w1,
        ChatHistory_get_or_create client k tags searchable w = (Returns h, w1) ->
        flag_set use_action = false -> flag_set use_llm = false ->
        get_or_create client k tags searchable use_llm use_action w
        = (Returns {| metadata := ∅; client := client; chat_history := h;
                      completed_steps := []; emit_funcs := [];
                      action_cache := None; llm_cache := None |}, w1))
  /\ (forall h w1 e w2,
        ChatHistory_get_or_create client k tags searchable w = (Returns h, w1) ->
        flag_set use_action = true ->
        ActionCache_get_or_create client k w1 = (Raises e, w2) ->
        get_or_create client k tags searchable use_llm use_action w
        = (Raises e, w2)).
Proof.
  repeat split.
  - intros e w1 E. unfold get_or_create. by rewrite (bind_raises _ _ _ _ _ E).
  - intros h w1 E Ha Hl. unfold get_or_create.
    rewrite (bind_returns _ _ _ _ _ E), Ha, Hl. reflexivity.
  - intros h w1 e w2 E Ha Ea. unfold get_or_create.
    rewrite (bind_returns _ _ _ _ _ E), Ha. run. by rewrite Ea.
Qed.
End ContextOrder.

(* ===================================================================== *)
(** ** Construction and webhook registration                              *)
(* ===================================================================== *)

Section TelegramSetupFacts.
Import TelegramSetup.
Variable P : Platform.
Variable could_not_set_webhook : string -> string -> steamship_message.
Variable exception_text : exn -> string.
Implicit Types (self : TelegramSetup.TelegramTransport) (w : World).

Lemma instance_init_outcome self w :
  TelegramSetup.instance_init P could_not_set_webhook self w
  = if nonempty (self_bot_token self) then
      let self' :=
        set_api_root
          (format (api_base (config self))
             ++ format (or_else (bot_token (config self)) (self_bot_token self)))%string
          self in
      (Returns self',
       with_http_log (http_log w ++ [set_webhook_request self']) w)
    else (Returns self, w).
Proof.
  unfold TelegramSetup.instance_init.
  destruct (nonempty (self_bot_token self)); [|reflexivity].
  unfold TelegramSetup._instance_init, request. run.
  by destruct (negb (ok _)).
Qed.

(** X22.  Registering the webhook never fails.  [instance_init] returns
    whatever the provider answers to [setWebhook]: a refusal is swallowed.
    Without a bot token it does nothing; with one it makes exactly one
    [setWebhook] call, for the token of the config when the config has one,
    whatever the transport's own token. *)
Theorem instance_init_never_raises self w :
  exists self' w',
    TelegramSetup.instance_init P could_not_set_webhook self w
    = (Returns self', w')
    /\ self_bot_token self' = self_bot_token self
    /\ (nonempty (self_bot_token self) = false -> self' = self /\ w' = w)
    /\ (nonempty (self_bot_token self) = true ->
        api_root self'
        = (format (api_base (config self))
             ++ format (or_else (bot_token (config self)) (self_bot_token self)))%string
        /\ w' = with_http_log (http_log w ++ [set_webhook_request self']) w).
Proof.
  rewrite instance_init_outcome.
  destruct (nonempty (self_bot_token self)); eexists _, _;
    (split; [reflexivity|]); by repeat split.
Qed.

(** The world after [store_token]. *)
Lemma stored_token_after (t : string) w w0 :
  stored_token
    (with_caches
       (<[(store_identifier, ∅) :=
            <["bot_token"%string := t]>
              (default ∅ (caches w !! (store_identifier, ∅)))]> (caches w)) w0)
  = Some t.
Proof.
  unfold stored_token. cbn. rewrite lookup_insert_eq. cbn.
  by rewrite lookup_insert_eq.
Qed.

Lemma connect_telegram_outcome self t w :
  exists self' w',
    TelegramSetup.connect_telegram P could_not_set_webhook exception_text self t w
    = (Returns ("OK"%string, self'), w')
    /\ self_bot_token self' = Some t
    /\ stored_token w' = Some t
    /\ http_log w'
       = http_log w ++ (if String.eqb t "" then [] else [set_webhook_request self'])
    /\ (t <> ""%string ->
        api_root self'
        = (format (api_base (config self))
             ++ format (or_else (bot_token (config self)) (Some t)))%string).
Proof.
  unfold TelegramSetup.connect_telegram, store_token. run.
  rewrite instance_init_outcome.
  cbn [self_bot_token set_bot_token nonempty config].
  destruct (String.eqb_spec t "") as [->|Hne]; cbn [negb].
  - eexists _, _. split; [reflexivity|]. cbn.
    split; [done|]. split; [apply stored_token_after|].
    split; [by rewrite app_nil_r|done].
  - eexists _, _. split; [reflexivity|]. cbn.
    split; [done|]. split; [apply stored_token_after|]. by split.
Qed.

(** X23.  [connect_telegram] always answers ["OK"].  Since [instance_init]
    swallows every exception, the error answer is never given: whatever the
    provider says to [setWebhook], the token is stored, becomes the
    transport's token, and ["OK"] is returned; an empty token is stored
    without any call. *)
Theorem connect_telegram_always_ok self t w :
  exists self' w',
    TelegramSetup.connect_telegram P could_not_set_webhook exception_text self t w
    = (Returns ("OK"%string, self'), w')
    /\ self_bot_token self' = Some t
    /\ stored_token w' = Some t
    /\ http_log w'
       = http_log w ++ (if String.eqb t "" then [] else [set_webhook_request self'])
    /\ (t <> ""%string ->
        api_root self'
        = (format (api_base (config self))
             ++ format (or_else (bot_token (config self)) (Some t)))%string).
Proof. apply connect_telegram_outcome. Qed.

(** X24.  The stored token is found again.  A transport constructed after
    [connect_telegram] was given token [t] has [t] as its bot token, unless
    its own config carries a non-empty token, which wins; its api root is the
    api base followed by that token. *)
Theorem connect_then_init self t config' service' url' w :
  exists self' w',
    TelegramSetup.connect_telegram P could_not_set_webhook exception_text self t w
    = (Returns ("OK"%string, self'), w')
    /\ exists fresh,
         TelegramSetup.__init__ config' service' url' w' = (Returns fresh, w')
         /\ self_bot_token fresh = or_else (bot_token config') (Some t)
         /\ api_root fresh
            = (format (api_base config')
                 ++ format (or_else (bot_token config') (Some t)))%string.
Proof.
  destruct (connect_telegram_outcome self t w) as (self' & w' & E & _ & Hs & _).
  exists self', w'. split; [exact E|].
  unfold TelegramSetup.__init__. run. rewrite Hs.
  eexists. split; [reflexivity|]. by split.
Qed.

(** X25.  A transport without any token.  Constructed with a config without
    token while none is stored, the transport has no bot token, its api root
    ends in ["None"], and [instance_init] registers nothing. *)
Theorem init_without_token config' service' url' w :
  stored_token w = None -> nonempty (bot_token config') = false ->
  exists fresh,
    TelegramSetup.__init__ config' service' url' w = (Returns fresh, w)
    /\ self_bot_token fresh = None
    /\ api_root fresh = (format (api_base config') ++ "None")%string
    /\ TelegramSetup.instance_init P could_not_set_webhook fresh w
       = (Returns fresh, w).
Proof.
  intros Hstored Hconf. unfold TelegramSetup.__init__. run. rewrite Hstored.
  assert (or_else (bot_token config') None = None) as Hor.
  { unfold or_else, nonempty in *. destruct (bot_token config') as [s|]; [|done].
    by destruct (String.eqb s ""). }
  rewrite Hor. eexists. split; [reflexivity|].
  split; [reflexivity|]. split; [reflexivity|].
  by rewrite instance_init_outcome.
Qed.
End TelegramSetupFacts.

(* ===================================================================== *)
(** ** Downloading a file                                                 *)
(* ===================================================================== *)

Section TelegramDownload.
Variable P : Platform.
Variable content : HttpResponse -> list Byte.byte.
Implicit Types (self : Telegram.TelegramTransport) (w : World).

(** X26.  Downloading a file.  [_download_file] first looks the file up: when
    that fails its exception is raised and nothing is downloaded.  Otherwise
    the file url is fetched by a second call, and the content returned when
    the status is 200, an exception raised when it is not. *)
Theorem download_file_outcome self fid w :
  (forall e w1,
     Telegram._get_file_url P self fid w = (Raises e, w1) ->
     TelegramCalls._download_file P content self fid w
     = (Raises e, with_http_log (http_log w ++ [get_file_request self fid]) w))
  /\ (forall u w1,
        Telegram._get_file_url P self fid w = (Returns u, w1) ->
        let sent := [get_file_request self fid] in
        let result := provider P (http_log w ++ sent) (HttpGet u []) in
        TelegramCalls._download_file P content self fid w
        = (if status_code result =? 200 then Returns (content result)
           else Raises (OtherError "Download file"),
           with_http_log (http_log w ++ sent ++ [HttpGet u []]) w)).
Proof.
  split.
  - intros e w1 E. pose proof (get_file_url_world P self fid w) as Hw.
    rewrite E in Hw. cbn [snd] in Hw. subst w1.
    unfold TelegramCalls._download_file. by rewrite (bind_raises _ _ _ _ _ E).
  - intros u w1 E sent result. pose proof (get_file_url_world P self fid w) as Hw.
    rewrite E in Hw. cbn [snd] in Hw. subst w1.
    unfold TelegramCalls._download_file. rewrite (bind_returns _ _ _ _ _ E).
    unfold request. run. cbn [http_log with_http_log]. fold sent result.
    destruct (status_code result =? 200); cbn; by rewrite <- app_assoc.
Qed.
End TelegramDownload.

(* ===================================================================== *)
(** ** The Telegram bot starter                                           *)
(* ===================================================================== *)

Section TelegramBotFacts.
Variable P : Platform.
Context {T : Type} `{Transport T}.
Variable create_response : Block -> M (option (list Block)).
Implicit Types (telegram_transport : T) (w : World)
  (kwargs m : gmap string pyval).

(** X27.  The bot swallows what it cannot report.  When the update has no
    message, or its message has no chat, or the chat has no id, [respond]
    answers ["OK"] whatever the transport's parser and [create_response] do:
    an exception of the [try] block is dropped, and the world is as the block
    left it. *)
Theorem respond_without_chat_id telegram_transport kwargs m w :
  default (PDict ∅) (kwargs !! "message") = PDict m ->
  m !! "chat" = None
  \/ (exists c, m !! "chat" = Some (PDict c) /\ default PNone (c !! "id") = PNone) ->
  TelegramBot.respond P create_response telegram_transport kwargs w
  = (Returns "OK"%string,
     snd (TelegramBot.respond_try create_response telegram_transport (PDict m) w)).
Proof.
  intros Hm Hchat. unfold TelegramBot.respond. rewrite Hm. run. py.
  assert (get_method (default (PDict ∅) (m !! "chat")) "id" PNone = Returns PNone)
    as Hid.
  { destruct Hchat as [Hchat | (c & Hchat & Hid)]; rewrite Hchat; py.
    - by rewrite lookup_empty.
    - by rewrite Hid. }
  destruct (default (PDict ∅) (m !! "chat")) as [| | | | |c]; try discriminate.
  py. cbn [get_method] in Hid. injection Hid as Hid. rewrite Hid.
  unfold TelegramBot.respond_except. py.
  by destruct (TelegramBot.respond_try _ _ _ w) as [[[]|e] w1].
Qed.

(** X28.  The bot and updates of the wrong shape.  As in [telegram_respond],
    the chat id is read before the [try]: when the message is present and no
    JSON object, or its chat is present and no JSON object, [AttributeError]
    leaves [respond] before the transport is asked to parse anything. *)
Theorem respond_shape_error telegram_transport kwargs w :
  (forall v, kwargs !! "message" = Some v -> (forall d, v <> PDict d) ->
     TelegramBot.respond P create_response telegram_transport kwargs w
     = (Raises (AttributeError "get"), w))
  /\ (forall m v, kwargs !! "message" = Some (PDict m) ->
        m !! "chat" = Some v -> (forall d, v <> PDict d) ->
        TelegramBot.respond P create_response telegram_transport kwargs w
        = (Raises (AttributeError "get"), w)).
Proof.
  split.
  - intros v Hv Hnd. unfold TelegramBot.respond. rewrite Hv. run. py.
    destruct v; try reflexivity. by destruct (Hnd d).
  - intros m v Hm Hv Hnd. unfold TelegramBot.respond. rewrite Hm. run. py.
    rewrite Hv. py. destruct v; try reflexivity. by destruct (Hnd d).
Qed.

End TelegramBotFacts.

(* ===================================================================== *)
(** ** The further statements at sample inputs                            *)
(* ===================================================================== *)

Section MoreAtSamples.
Import Samples MoreSamples.

Lemma parse_inbound_text_message_witness :
  Telegram._parse_inbound platform (telegram silent_agent) (PDict text_message)
    None empty_world
  = (Returns (Some
       {| text := PStr "hi"; url := None; mime_type := Other;
          chat_id := PStr (py_str (py_repr platform) (PInt 7));
          message_id := PStr (py_str (py_repr platform) (PInt 1));
          tags := [] |}), empty_world).
Proof.
  apply (parse_inbound_text_message platform (telegram silent_agent)
           text_message {[ "id" := PInt 7 ]} (PInt 7) (PInt 1) (PStr "hi")
           None empty_world); reflexivity.
Defined.

Lemma parse_inbound_ids_checked_first_witness :
  Telegram._parse_inbound platform (telegram silent_agent)
    (PDict chat_is_string) None empty_world
  = (Raises (AttributeError "get"), empty_world)
  /\ Telegram._parse_inbound platform (telegram silent_agent)
       (PDict chat_id_is_string) None empty_world
     = (Raises (SteamshipError (BadChatId (PStr "abc"))), empty_world)
  /\ Telegram._parse_inbound platform (telegram silent_agent)
       (PDict voice_without_message_id) None empty_world
     = (Raises (SteamshipError (NoMessageIdFound (PDict voice_without_message_id))),
        empty_world)
  /\ Telegram._parse_inbound platform (telegram silent_agent)
       (PDict message_id_is_string) None empty_world
     = (Raises (SteamshipError (BadMessageId (PStr "m1"))), empty_world).
Proof.
  split; [|split; [|split]].
  - apply (proj1 (parse_inbound_ids_checked_first platform
                    (telegram silent_agent) chat_is_string None empty_world)
             (PStr "group")); [reflexivity | reflexivity | discriminate].
  - apply (proj1 (proj2 (parse_inbound_ids_checked_first platform
                    (telegram silent_agent) chat_id_is_string None empty_world))
             {[ "id" := PStr "abc" ]} (PStr "abc")); reflexivity.
  - apply (proj1 (proj2 (proj2 (parse_inbound_ids_checked_first platform
                    (telegram silent_agent) voice_without_message_id None
                    empty_world)))
             {[ "id" := PInt 7 ]} (PInt 7)); reflexivity.
  - apply (proj2 (proj2 (proj2 (parse_inbound_ids_checked_first platform
                    (telegram silent_agent) message_id_is_string None
                    empty_world)))
             {[ "id" := PInt 7 ]} (PInt 7) (PStr "m1")); reflexivity.
Defined.



Lemma send_unsupported_dropped_witness :
  Telegram._send platform (telegram silent_agent)
    ([text_block] ++ odd_block :: [second_text_block]) ∅ empty_world
  = Telegram._send platform (telegram silent_agent) [second_text_block] ∅
      (with_error_log ([] ++ [UnableToSendBlock Other])
         (with_http_log
            [send_message_request (telegram silent_agent) 1 (PStr "hi")]
            empty_world)).
Proof.
  apply (send_unsupported_dropped platform (telegram silent_agent)
           [text_block] odd_block [second_text_block] ∅ empty_world
           (with_http_log
              [send_message_request (telegram silent_agent) 1 (PStr "hi")]
              empty_world)); reflexivity.
Defined.

Lemma send_media_accepted_witness :
  exists suffix key,
    (mime_type image_block = Image /\ suffix = "sendPhoto"%string
       /\ key = "photo"%string
     \/ mime_type image_block = Audio /\ suffix = "sendAudio"%string
        /\ key = "audio"%string
     \/ mime_type image_block = Video /\ suffix = "sendVideo"%string
        /\ key = "video"%string)
    /\ (status_code (provider platform (http_log empty_world)
                       (upload_request platform (telegram silent_agent)
                          suffix key image_block [])) = 200 ->
        Telegram._send platform (telegram silent_agent)
          (image_block :: [text_block]) ∅ empty_world
        = Telegram._send platform (telegram silent_agent) [text_block] ∅
            (with_http_log
               (http_log empty_world
                  ++ [upload_request platform (telegram silent_agent)
                        suffix key image_block []]) empty_world)).
Proof.
  apply (send_media_accepted platform (telegram silent_agent) image_block []
           [text_block] ∅ empty_world); reflexivity.
Defined.

Lemma send_media_refused_in_batch_witness :
  exists suffix key,
    (mime_type image_block = Image /\ suffix = "sendPhoto"%string
       /\ key = "photo"%string
     \/ mime_type image_block = Audio /\ suffix = "sendAudio"%string
        /\ key = "audio"%string
     \/ mime_type image_block = Video /\ suffix = "sendVideo"%string
        /\ key = "video"%string)
    /\ (status_code
          (provider refusing
             (http_log empty_world
                ++ zip_with
                     (fun b n =>
                        send_message_request (telegram silent_agent) n (text b))
                     [text_block] [1])
             (upload_request refusing (telegram silent_agent) suffix key
                image_block [])) <> 200 ->
        Telegram._send refusing (telegram silent_agent)
          ([text_block] ++ image_block :: [second_text_block]) ∅ empty_world
        = (Raises (SteamshipError (MessageNotSent (PInt 1) "Bad Request")),
           with_error_log
             (error_log empty_world ++ [ErrorSendingMessage "Bad Request" 400])
             (with_http_log
                (http_log empty_world
                   ++ zip_with
                        (fun b n =>
                           send_message_request (telegram silent_agent) n (text b))
                        [text_block] [1]
                   ++ [upload_request refusing (telegram silent_agent) suffix
                         key image_block []]) empty_world))).
Proof.
  apply (send_media_refused_in_batch refusing (telegram silent_agent)
           [text_block] [1] image_block [] [second_text_block] ∅ empty_world);
    [repeat constructor | reflexivity | reflexivity | reflexivity].
Defined.


Lemma telegram_respond_without_chat_id_witness :
  Telegram.telegram_respond platform (telegram silent_agent) ∅ empty_world
  = (Returns "OK"%string, empty_world).
Proof.
  apply (telegram_respond_without_chat_id platform (telegram silent_agent) ∅ ∅
           empty_world); [reflexivity | by left].
Defined.

Lemma telegram_respond_shape_error_witness :
  Telegram.telegram_respond platform (telegram silent_agent) message_is_string
    empty_world
  = (Raises (AttributeError "get"), empty_world)
  /\ Telegram.telegram_respond platform (telegram silent_agent) null_chat_update
       empty_world
     = (Raises (AttributeError "get"), empty_world).
Proof.
  split.
  - apply (proj1 (telegram_respond_shape_error platform (telegram silent_agent)
                    message_is_string empty_world) (PStr "hello"));
      [reflexivity | discriminate].
  - apply (proj2 (telegram_respond_shape_error platform (telegram silent_agent)
                    null_chat_update empty_world)
             {[ "chat" := PNone ]} PNone); [reflexivity | reflexivity | discriminate].
Defined.

Lemma telegram_respond_rejected_message_witness :
  exists msg,
    (msg = NoMessageIdFound (PDict no_message_id)
     \/ msg = BadMessageId (default PNone (no_message_id !! "message_id")))
    /\ Telegram.telegram_respond platform (telegram silent_agent)
         no_message_id_update empty_world
       = (Returns "OK"%string,
          with_http_log
            (http_log empty_world
               ++ [send_message_request (telegram silent_agent) 7
                     (PStr (error_text platform (Some (SteamshipError msg))))])
            empty_world).
Proof.
  apply (telegram_respond_rejected_message platform (telegram silent_agent)
           no_message_id_update no_message_id {[ "id" := PInt 7 ]} (PInt 7) 7
           empty_world); try reflexivity.
  by left.
Defined.

Lemma telegram_respond_file_lookup_fails_witness :
  Telegram.telegram_respond refusing (telegram silent_agent) voice_update
    empty_world
  = (Returns "OK"%string,
     with_http_log
       (http_log empty_world
          ++ [get_file_request (telegram silent_agent)
                (default PNone
                   (({[ "file_id" := PStr "F1" ]} : gmap string pyval) !! "file_id"));
              send_message_request (telegram silent_agent) 7
                (PStr (error_text refusing (Some JSONDecodeError)))])
       empty_world).
Proof.
  apply (telegram_respond_file_lookup_fails refusing (telegram silent_agent)
           voice_update voice_message {[ "id" := PInt 7 ]} (PInt 7) 7 (PInt 1)
           {[ "file_id" := PStr "F1" ]} JSONDecodeError empty_world
           (with_http_log
              [get_file_request (telegram silent_agent) (PStr "F1")]
              empty_world)); reflexivity.
Defined.

Lemma telegram_respond_delivers_witness :
  exists w',
    Telegram.telegram_respond refusing (telegram greeting_agent) text_update
      empty_world = (Returns "OK"%string, w')
    /\ http_log w'
       = http_log empty_world
           ++ map (fun b =>
                     send_message_request (telegram greeting_agent) 7 (text b))
                [hi_there]
    /\ history_entries
         (context_keys_for (Telegram.agent_service (telegram greeting_agent))
            (PInt 7)) w'
       = history_entries
           (context_keys_for (Telegram.agent_service (telegram greeting_agent))
              (PInt 7)) empty_world
           ++ [user_entry (PStr "hi")]
    /\ agent_runs w' = S (agent_runs empty_world)
    /\ error_log w' = error_log empty_world.
Proof.
  apply (telegram_respond_delivers refusing (telegram greeting_agent)
           text_update text_message {[ "id" := PInt 7 ]} (PInt 7) 7 (PInt 1)
           (PStr "hi") [hi_there] empty_world); try reflexivity;
    repeat constructor.
Defined.

Lemma telegram_respond_emission_refused_witness :
  exists w',
    Telegram.telegram_respond platform (telegram forwarding_agent) text_update
      empty_world = (Returns "OK"%string, w')
    /\ http_log w'
       = http_log empty_world
           ++ [send_message_request (telegram forwarding_agent) 7
                 (PStr (error_text platform
                          (Some (SteamshipError
                                   (ChatIdAlreadySet (chat_id text_block)
                                      (PInt 7))))))]
    /\ history_entries
         (context_keys_for (Telegram.agent_service (telegram forwarding_agent))
            (PInt 7)) w'
       = history_entries
           (context_keys_for (Telegram.agent_service (telegram forwarding_agent))
              (PInt 7)) empty_world
           ++ [user_entry (PStr "hi")]
    /\ agent_runs w' = S (agent_runs empty_world).
Proof.
  apply (telegram_respond_emission_refused platform (telegram forwarding_agent)
           text_update text_message {[ "id" := PInt 7 ]} (PInt 7) 7 (PInt 1)
           (PStr "hi") [hi_there] text_block [] empty_world);
    try reflexivity; repeat constructor.
Defined.


Lemma answer_without_question_witness :
  Widget.answer platform (widget greeting_agent) ∅ world_with_buffer
  = (Raises (SteamshipError (NoQuestionFound (PDict ∅))), world_with_buffer).
Proof.
  apply (answer_without_question platform (widget greeting_agent) ∅
           world_with_buffer). reflexivity.
Defined.

Lemma answer_returns_last_emission_witness :
  exists w',
    Widget.answer platform (widget chatty_agent) hello_question empty_world
    = (match last_emission (events chatty_run) (message_output empty_world) with
       | Some blocks => Returns blocks
       | None => Raises (AttributeError "message_output")
       end, w')
    /\ message_output w'
       = last_emission (events chatty_run) (message_output empty_world).
Proof.
  apply (answer_returns_last_emission platform (widget chatty_agent)
           hello_question (PStr "hello") chatty_run None empty_world);
    reflexivity.
Defined.

Lemma answer_exception_overrides_emissions_witness :
  exists w',
    Widget.answer platform (widget crashing_agent) hello_question empty_world
    = (Returns
         [response_for_exception platform (Some (OtherError "boom"))
            (PStr (py_str (py_repr platform)
                     (default (PStr "default")
                        (hello_question !! "chat_session_id"))))],
       w').
Proof.
  apply (answer_exception_overrides_emissions platform (widget crashing_agent)
           hello_question (PStr "hello") crashing_run (OtherError "boom")
           empty_world); reflexivity.
Defined.


Lemma get_or_create_resolution_order_witness :
  get_or_create (H := unreachable) {| workspace := "default" |}
    {[ "id" := "abc"%string ]} None true (Some true) (Some true) empty_world
  = (Raises (OtherError "unreachable"), empty_world)
  /\ (exists h w1,
        get_or_create (H := store) {| workspace := "default" |}
          {[ "id" := "abc"%string ]} None true None (Some false) empty_world
        = (Returns {| metadata := ∅; client := {| workspace := "default" |};
                      chat_history := h; completed_steps := [];
                      emit_funcs := []; action_cache := None;
                      llm_cache := None |}, w1))
  /\ (exists w2,
        get_or_create (H := cacheless) {| workspace := "default" |}
          {[ "id" := "abc"%string ]} None true (Some true) (Some true)
          empty_world
        = (Raises (OtherError "unreachable"), w2)).
Proof.
  split; [|split].
  - apply (proj1 (get_or_create_resolution_order (H := unreachable)
                    {| workspace := "default" |} {[ "id" := "abc"%string ]}
                    None true (Some true) (Some true) empty_world)).
    reflexivity.
  - eexists _, _.
    apply (proj1 (proj2 (get_or_create_resolution_order (H := store)
                    {| workspace := "default" |} {[ "id" := "abc"%string ]}
                    None true None (Some false) empty_world)));
      reflexivity.
  - eexists.
    eapply (proj2 (proj2 (get_or_create_resolution_order (H := cacheless)
                    {| workspace := "default" |} {[ "id" := "abc"%string ]}
                    None true (Some true) (Some true) empty_world)));
      reflexivity.
Defined.

Lemma init_without_token_witness :
  exists fresh,
    TelegramSetup.__init__ tokenless (service silent_agent)
      "https://example.org/bot/" empty_world = (Returns fresh, empty_world)
    /\ TelegramSetup.self_bot_token fresh = None
    /\ TelegramSetup.api_root fresh
       = (TelegramSetup.format (TelegramSetup.api_base tokenless) ++ "None")%string
    /\ TelegramSetup.instance_init refusing webhook_refused fresh empty_world
       = (Returns fresh, empty_world).
Proof.
  apply (init_without_token refusing webhook_refused tokenless
           (service silent_agent) "https://example.org/bot/"%string empty_world);
    reflexivity.
Defined.

Lemma download_file_outcome_witness :
  TelegramCalls._download_file refusing text_bytes (telegram silent_agent)
    (PStr "F1") empty_world
  = (Raises JSONDecodeError,
     with_http_log
       (http_log empty_world
          ++ [get_file_request (telegram silent_agent) (PStr "F1")])
       empty_world)
  /\ TelegramCalls._download_file platform text_bytes (telegram silent_agent)
       (PStr "F1") empty_world
     = (Returns [],
        with_http_log
          (http_log empty_world
             ++ [get_file_request (telegram silent_agent) (PStr "F1")]
             ++ [HttpGet "https://api.telegram.org/file/bot123:abc/voice/file_1.oga" []])
          empty_world).
Proof.
  split.
  - apply (proj1 (download_file_outcome refusing text_bytes
                    (telegram silent_agent) (PStr "F1") empty_world)
             JSONDecodeError
             (with_http_log
                [get_file_request (telegram silent_agent) (PStr "F1")]
                empty_world)).
    reflexivity.
  - apply (proj2 (download_file_outcome platform text_bytes
                    (telegram silent_agent) (PStr "F1") empty_world)
             "https://api.telegram.org/file/bot123:abc/voice/file_1.oga"%string
             (with_http_log
                [get_file_request (telegram silent_agent) (PStr "F1")]
                empty_world)).
    reflexivity.
Defined.

Lemma respond_without_chat_id_witness :
  TelegramBot.respond (H := Telegram.telegram_transport platform) platform
    no_response (telegram silent_agent) ∅ empty_world
  = (Returns "OK"%string,
     snd (TelegramBot.respond_try (H := Telegram.telegram_transport platform)
            no_response (telegram silent_agent) (PDict ∅) empty_world)).
Proof.
  apply (respond_without_chat_id platform (H := Telegram.telegram_transport platform)
           no_response (telegram silent_agent) ∅ ∅ empty_world);
    [reflexivity | by left].
Defined.

Lemma respond_shape_error_witness :
  TelegramBot.respond (H := Telegram.telegram_transport platform) platform
    no_response (telegram silent_agent) message_is_string empty_world
  = (Raises (AttributeError "get"), empty_world)
  /\ TelegramBot.respond (H := Telegram.telegram_transport platform) platform
       no_response (telegram silent_agent) null_chat_update empty_world
     = (Raises (AttributeError "get"), empty_world).
Proof.
  split.
  - apply (proj1 (respond_shape_error platform
                    (H := Telegram.telegram_transport platform) no_response
                    (telegram silent_agent) message_is_string empty_world)
             (PStr "hello")); [reflexivity | discriminate].
  - apply (proj2 (respond_shape_error platform
                    (H := Telegram.telegram_transport platform) no_response
                    (telegram silent_agent) null_chat_update empty_world)
             {[ "chat" := PNone ]} PNone);
      [reflexivity | reflexivity | discriminate].
Defined.
End MoreAtSamples.
